(** * python-spree: the Resource / Pagination protocol of [spree/spree.py]

    A shallow embedding of the client library: Python values that travel
    through the library, the mutable objects it shares with its caller
    (dicts and Pagination objects, kept in a store and named by references),
    the requests it hands to the HTTP session, and the methods of
    [Pagination], [Resource] and the six resource classes. *)

From Stdlib Require Import ZArith String Ascii List Decimal DecimalString Lia.
From stdpp Require Import base gmap list strings.

Set Warnings "-register-all".
Open Scope string_scope.
Open Scope list_scope.
Open Scope Z_scope.

(** ** Python values *)

(** Values found in decoded JSON bodies and in the dicts callers pass in.
    JSON numbers are integers here; Python floats are outside the model. *)
Inductive pyval :=
| PNone
| PBool (b : bool)
| PInt (z : Z)
| PStr (s : string)
| PList (l : list pyval)
| PDict (m : gmap string pyval).

(** Identifiers handed to the library (record ids, product ids, order and
    shipment numbers): [None], a bool, an integer or a text. *)
Inductive scalar :=
| SNone
| SBool (b : bool)
| SInt (z : Z)
| SStr (s : string).

Definition pyval_of_scalar (x : scalar) : pyval :=
  match x with
  | SNone => PNone
  | SBool b => PBool b
  | SInt z => PInt z
  | SStr s => PStr s
  end.

(** A Python dict with text keys. *)
Abbreviation dict := (gmap string pyval).

(** References into the store. *)
Abbreviation loc := nat.

(** ** Requests and responses *)

Inductive method := GET | POST | PUT | DELETE.

(** What [requests] makes of a response: its status and what
    [response.json()] gives, [None] when the body does not decode. *)
Record response := Response {
  status_code : Z;
  json_body : option pyval
}.

(** One call on the session.  [target] is the first positional argument
    (the URL), [params] the [params=] keyword, [body] the [data=] keyword;
    dicts are recorded as they are when the call is made.  [token] is the
    session's [X-Spree-Token] header. *)
Record request := Request {
  meth : method;
  target : pyval;
  token : string;
  params : option dict;
  body : option dict
}.

(** ** Exceptions *)

Inductive exn :=
| ResourceNotFound (msg : string)
| HTTPError (r : response)
| KeyError (k : pyval)
| TypeError
| ValueError
| IndexError
| StopIteration
| RequestException (what : string)
| DanglingRef.
(** [HTTPError] is [requests.exceptions.HTTPError], which carries the
    response.  [RequestException] stands for whatever the transport raises.
    [DanglingRef] is no Python exception: it is the model's answer to a
    reference that names no object of the store, which no Python program
    can build. *)

Abbreviation result A := (exn + A)%type.

(** ** Built-in operations on values *)

(** Truth value of an object, as [if x], [not x] and [x or y] test it. *)
Definition truthy (v : pyval) : bool :=
  match v with
  | PNone => false
  | PBool b => b
  | PInt z => negb (Z.eqb z 0)
  | PStr s => negb (String.eqb s EmptyString)
  | PList l => match l with [] => false | _ => true end
  | PDict m => negb (bool_decide (m = ∅))
  end.

Definition str_of_Z (z : Z) : string := NilZero.string_of_int (Z.to_int z).

(** ['%s' % x] *)
Definition format_s (x : scalar) : string :=
  match x with
  | SNone => "None"
  | SBool true => "True"
  | SBool false => "False"
  | SInt z => str_of_Z z
  | SStr s => s
  end.

(** ['%d' % x]: a number is required. *)
Definition format_d (x : scalar) : result string :=
  match x with
  | SInt z => inr (str_of_Z z)
  | SBool true => inr "1"
  | SBool false => inr "0"
  | SNone | SStr _ => inl TypeError
  end.

(** [v[key]] with a text key. *)
Definition getitem_str (v : pyval) (key : string) : result pyval :=
  match v with
  | PDict m => match m !! key with
               | Some x => inr x
               | None => inl (KeyError (PStr key))
               end
  | _ => inl TypeError
  end.

(** [s[i]] on a text: the one-character text at position [i]. *)
Definition char_at (s : string) (i : nat) : option string :=
  match String.get i s with
  | Some c => Some (String c EmptyString)
  | None => None
  end.

(** [v[i]] with an integer index; a negative index counts from the end. *)
Definition getitem_int (v : pyval) (i : Z) : result pyval :=
  match v with
  | PList l =>
      let n := Z.of_nat (length l) in
      let j := if i <? 0 then i + n else i in
      if (0 <=? j) && (j <? n)
      then match l !! Z.to_nat j with
           | Some x => inr x
           | None => inl IndexError
           end
      else inl IndexError
  | PStr s =>
      let n := Z.of_nat (String.length s) in
      let j := if i <? 0 then i + n else i in
      if (0 <=? j) && (j <? n)
      then match char_at s (Z.to_nat j) with
           | Some c => inr (PStr c)
           | None => inl IndexError
           end
      else inl IndexError
  | PDict _ => inl (KeyError (PInt i))
  | PNone | PBool _ | PInt _ => inl TypeError
  end.

(** [x, = v]: unpacking into exactly one target.  Any iterable will do: a
    list gives its element, a text its character, a dict its key. *)
Definition unpack1 (v : pyval) : result pyval :=
  match v with
  | PList [x] => inr x
  | PList _ => inl ValueError
  | PStr s => if Nat.eqb (String.length s) 1 then inr (PStr s) else inl ValueError
  | PDict m => match map_to_list m with
               | [(k, _)] => inr (PStr k)
               | _ => inl ValueError
               end
  | PNone | PBool _ | PInt _ => inl TypeError
  end.

(** ** The store and the monad of the library's methods *)

Record connection_t := Spree {
  conn_url : string;
  api_key : string
}.

Inductive kind :=
  | Product
  | Order
  | StockLocation
  | StockItem (location_id : Z)
  | Variant (product_id : scalar)
  | Shipment (order_number : scalar).

(** A resource handle: [Resource.__init__] stores [connection] and
    [per_page]; a subclass adds what its path is computed from. *)
Record Resource := mkResource {
  connection : connection_t;
  per_page : Z;
  cls : kind
}.

(** A [Pagination] object; [filters] is [None] or a reference to a dict. *)
Record Pagination := mkPagination {
  data : pyval;
  items : pyval;
  current_index : Z;
  resource : Resource;
  filters : option loc
}.

(** The mutable objects, and the requests made so far (oldest first). *)
Record world := World {
  dicts : list dict;
  paginations : list Pagination;
  sent : list request
}.

Definition M (A : Type) : Type := world -> result A * world.

Definition ret {A} (a : A) : M A := fun w => (inr a, w).

Definition raise {A} (e : exn) : M A := fun w => (inl e, w).

Definition bind {A B} (m : M A) (k : A -> M B) : M B :=
  fun w => match m w with
           | (inl e, w') => (inl e, w')
           | (inr a, w') => k a w'
           end.

Definition lift {A} (r : result A) : M A := fun w => (r, w).

Declare Scope py_scope.
Delimit Scope py_scope with py.
Notation "x <- m ;; k" := (bind m (fun x => k))
  (at level 100, m at next level, right associativity) : py_scope.
Notation "m ;;; k" := (bind m (fun _ => k))
  (at level 100, right associativity) : py_scope.
Open Scope py_scope.

Definition read_dict (l : loc) : M dict :=
  fun w => match dicts w !! l with
           | Some d => (inr d, w)
           | None => (inl DanglingRef, w)
           end.

Definition write_dict (l : loc) (d : dict) : M unit :=
  fun w => (inr tt, World (<[l := d]> (dicts w)) (paginations w) (sent w)).

Definition modify_dict (l : loc) (f : dict -> dict) : M unit :=
  d <- read_dict l ;; write_dict l (f d).

Definition new_dict (d : dict) : M loc :=
  fun w => (inr (length (dicts w)),
            World (dicts w ++ [d]) (paginations w) (sent w)).

Definition read_pagination (l : loc) : M Pagination :=
  fun w => match paginations w !! l with
           | Some p => (inr p, w)
           | None => (inl DanglingRef, w)
           end.

Definition write_pagination (l : loc) (p : Pagination) : M unit :=
  fun w => (inr tt, World (dicts w) (<[l := p]> (paginations w)) (sent w)).

Definition new_pagination (p : Pagination) : M loc :=
  fun w => (inr (length (paginations w)),
            World (dicts w) (paginations w ++ [p]) (sent w)).

(** [ready] and [ship] declare [data={}]: one dict each, built when the
    class body runs and used by every call that leaves [data] out.  They
    are the first two objects of the store. *)
Definition ready_default : loc := 0%nat.
Definition ship_default : loc := 1%nat.

Definition initial_world : world := World [∅; ∅] [] [].

Section Library.

(** The HTTP session: what it answers to a request, given the requests made
    before.  It either raises or hands back a response. *)
Variable send : list request -> request -> result response.

(** Python's [int] on a text. *)
Variable int_of_str : string -> result Z.

(** *** class Spree *)

Definition session_request (c : connection_t) (m : method) (url : pyval)
    (params body : option dict) : M response :=
  fun w =>
    let rq := Request m url (api_key c) params body in
    (send (sent w) rq, World (dicts w) (paginations w) (sent w ++ [rq])).

Definition Spree_product (self : connection_t) : Resource :=
  mkResource self 25 Product.

Definition Spree_order (self : connection_t) : Resource :=
  mkResource self 25 Order.

Definition Spree_get_stock_item (self : connection_t) (location_id : Z) : Resource :=
  mkResource self 25 (StockItem location_id).

Definition Spree_variant (self : connection_t) (product_id : scalar) : Resource :=
  mkResource self 25 (Variant product_id).

Definition Spree_stock_locations (self : connection_t) : Resource :=
  mkResource self 25 StockLocation.

Definition Spree_shipment (self : connection_t) (order_number : scalar) : Resource :=
  mkResource self 25 (Shipment order_number).

(** *** class Pagination *)

(** [int(v)] *)
Definition py_int (v : pyval) : result Z :=
  match v with
  | PInt z => inr z
  | PBool b => inr (if b then 1 else 0)
  | PStr s => int_of_str s
  | PNone | PList _ | PDict _ => inl TypeError
  end.

Definition Pagination_init (data : pyval) (items_attribute : string)
    (resource : Resource) (filters : option loc) : M loc :=
  items <- lift (getitem_str data items_attribute) ;;
  new_pagination (mkPagination data items (-1) resource filters).

Definition Pagination_count (self : loc) : M Z :=
  p <- read_pagination self ;;
  v <- lift (getitem_str (data p) "count") ;;
  lift (py_int v).

Definition Pagination_page (self : loc) : M Z :=
  p <- read_pagination self ;;
  v <- lift (getitem_str (data p) "current_page") ;;
  lift (py_int v).

Definition Pagination_pages (self : loc) : M Z :=
  p <- read_pagination self ;;
  v <- lift (getitem_str (data p) "pages") ;;
  lift (py_int v).

Definition Pagination_has_next (self : loc) : M bool :=
  pages <- Pagination_pages self ;;
  page <- Pagination_page self ;;
  ret (pages >? page).

Definition Pagination_iter (self : loc) : M loc := ret self.

Definition Pagination_getitem (self : loc) (index : Z) : M pyval :=
  p <- read_pagination self ;;
  lift (getitem_int (items p) index).

Definition Pagination_next (self : loc) : M pyval :=
  p <- read_pagination self ;;
  count <- Pagination_count self ;;
  if current_index p <? count - 1 then
    write_pagination self
      (mkPagination (data p) (items p) (current_index p + 1)
                    (resource p) (filters p)) ;;;
    p' <- read_pagination self ;;
    lift (getitem_int (items p') (current_index p'))
  else raise StopIteration.

(** *** class Resource and its subclasses *)

(** The [path] attribute: a class constant, or the property of
    [StockItem], [Variant] and [Shipment].  A location id is an integer
    (the path formats it with [%d]). *)
Definition path (self : Resource) : string :=
  match cls self with
  | Product => "/products"
  | Order => "/orders"
  | StockLocation => "/stock_locations"
  | StockItem location_id =>
      "/stock_locations/" +:+ str_of_Z location_id +:+ "/stock_items"
  | Variant product_id =>
      "/products/" +:+ format_s product_id +:+ "/variants"
  | Shipment order_number =>
      "/orders/" +:+ format_s order_number +:+ "/shipments"
  end.

Definition item_attribute (self : Resource) : string :=
  match cls self with
  | Product => "products"
  | Order => "orders"
  | StockLocation => "stock_locations"
  | StockItem _ => "stock_items"
  | Variant _ => "variants"
  | Shipment _ => "shipments"
  end.

Definition url (self : Resource) : string :=
  conn_url (connection self) +:+ path self.

(** requests' [Response.raise_for_status]: an [HTTPError] for a status from
    400 to 599, nothing otherwise. *)
Definition raise_for_status (r : response) : M unit :=
  if (400 <=? status_code r) && (status_code r <? 600)
  then raise (HTTPError r)
  else ret tt.

Definition validate_response (r : response) : M unit :=
  if status_code r =? 404
  then raise (ResourceNotFound "Resource not found.")
  else raise_for_status r.

(** [response.json()] *)
Definition response_json (r : response) : M pyval :=
  match json_body r with
  | Some v => ret v
  | None => raise ValueError
  end.

(** [if field in data: payload[key] = data[field]] *)
Definition copy_field (d : dict) (field key : string) (payload : dict) : dict :=
  match d !! field with
  | Some v => <[key := v]> payload
  | None => payload
  end.

Definition Product_load_payload (data : loc) : M loc :=
  d <- read_dict data ;;
  name <- lift (getitem_str (PDict d) "name") ;;
  let payload : dict := {[ "product[name]" := name ]} in
  let payload := copy_field d "price" "product[price]" payload in
  let payload :=
    copy_field d "shipping_category_id" "product[shipping_category_id]" payload in
  let payload := copy_field d "sku" "product[sku]" payload in
  let payload := copy_field d "description" "product[description]" payload in
  let payload := copy_field d "display_price" "product[display_price]" payload in
  let payload := copy_field d "available_on" "product[available_on]" payload in
  let payload :=
    copy_field d "meta_description" "product[meta_description]" payload in
  let payload := copy_field d "meta_keywords" "product[meta_keywords]" payload in
  let payload := copy_field d "weight" "product[weight]" payload in
  let payload := copy_field d "height" "product[height]" payload in
  let payload := copy_field d "width" "product[width]" payload in
  let payload := copy_field d "depth" "product[depth]" payload in
  let payload := copy_field d "cost_price" "product[cost_price]" payload in
  new_dict payload.

Definition StockItem_load_payload (data : loc) : M loc :=
  d <- read_dict data ;;
  let payload : dict := ∅ in
  let payload := copy_field d "count_on_hand" "stock_item[count_on_hand]" payload in
  let payload := copy_field d "force" "stock_item[force]" payload in
  new_dict payload.

(** [if old in data: data[new] = data.pop(old)] *)
Definition move_key (old new : string) (d : dict) : dict :=
  match d !! old with
  | Some v => <[new := v]> (delete old d)
  | None => d
  end.

Definition Shipment_load_payload (data : loc) : M loc :=
  modify_dict data (move_key "tracking" "shipment[tracking]") ;;;
  modify_dict data (move_key "number" "shipment[number]") ;;;
  ret data.

(** [self.load_payload(data)]; the base class hands [data] back. *)
Definition load_payload (self : Resource) (data : loc) : M loc :=
  match cls self with
  | Product => Product_load_payload data
  | StockItem _ => StockItem_load_payload data
  | Shipment _ => Shipment_load_payload data
  | Order | StockLocation | Variant _ => ret data
  end.

(** [filters or {}] *)
Definition or_new_dict (filters : option loc) : M loc :=
  match filters with
  | None => new_dict ∅
  | Some l =>
      d <- read_dict l ;;
      if truthy (PDict d) then ret l else new_dict ∅
  end.

Definition Resource_find (self : Resource) (page : Z) (filters : option loc)
    : M loc :=
  params <- or_new_dict filters ;;
  modify_dict params
    (fun d => <["per_page" := PInt (per_page self)]> (<["page" := PInt page]> d)) ;;;
  p <- read_dict params ;;
  response <- session_request (connection self) GET (PStr (url self))
                (Some p) None ;;
  validate_response response ;;;
  j <- response_json response ;;
  Pagination_init j (item_attribute self) self filters.

Definition Resource_get (self : Resource) (id : scalar) : M pyval :=
  let path := url self +:+ "/" +:+ format_s id in
  response <- session_request (connection self) GET (PStr path) None None ;;
  validate_response response ;;;
  response_json response.

Definition Resource_create (self : Resource) (data : loc) : M pyval :=
  payload <- load_payload self data ;;
  p <- read_dict payload ;;
  response <- session_request (connection self) POST (PStr (url self))
                None (Some p) ;;
  validate_response response ;;;
  response_json response.

Definition Resource_update (self : Resource) (id : scalar) (data : loc) : M pyval :=
  i <- lift (format_d id) ;;
  let path := url self +:+ "/" +:+ i in
  payload <- load_payload self data ;;
  p <- read_dict payload ;;
  response <- session_request (connection self) PUT (PStr path) None (Some p) ;;
  validate_response response ;;;
  response_json response.

Definition Resource_delete (self : Resource) (id : scalar) : M pyval :=
  i <- lift (format_d id) ;;
  let path := url self +:+ "/" +:+ i in
  response <- session_request (connection self) DELETE (PStr path) None None ;;
  validate_response response ;;;
  response_json response.

Definition Variant_get (self : Resource) (product_id : scalar) (id : scalar)
    : M pyval :=
  if negb (truthy (pyval_of_scalar product_id)) then
    let path := conn_url (connection self) +:+ "/variants" in
    response <- session_request (connection self) GET (PStr path)
                  (Some {[ "q[id_eq]" := pyval_of_scalar id ]}) None ;;
    validate_response response ;;;
    j <- response_json response ;;
    l <- lift (getitem_str j (item_attribute self)) ;;
    lift (unpack1 l)
  else Resource_get self id.

Definition Shipment_update (self : Resource) (shipment_number : scalar)
    (data : loc) : M pyval :=
  let path := PStr (url self +:+ "/" +:+ format_s shipment_number) in
  d <- read_dict data ;;
  path <- match d !! "path" with
          | Some v =>
              if truthy v
              then write_dict data (delete "path" d) ;;; ret v
              else ret path
          | None => ret path
          end ;;
  payload <- load_payload self data ;;
  p <- read_dict payload ;;
  response <- session_request (connection self) PUT path (Some p) None ;;
  validate_response response ;;;
  response_json response.

(** The body shared by [ready], [ship], [add] and [remove]:
    [data['path'] = ...; return self.update(shipment_number, data)]. *)
Definition Shipment_action (action : string) (self : Resource)
    (shipment_number : scalar) (data : loc) : M pyval :=
  modify_dict data
    (<["path" := PStr (url self +:+ "/" +:+ format_s shipment_number
                         +:+ action)]>) ;;;
  Shipment_update self shipment_number data.

(** [data] left out is the method's own default dict. *)
Definition Shipment_ready (self : Resource) (shipment_number : scalar)
    (data : option loc) : M pyval :=
  Shipment_action "/ready" self shipment_number (default ready_default data).

Definition Shipment_ship (self : Resource) (shipment_number : scalar)
    (data : option loc) : M pyval :=
  Shipment_action "/ship" self shipment_number (default ship_default data).

Definition Shipment_add (self : Resource) (shipment_number : scalar)
    (data : loc) : M pyval :=
  Shipment_action "/add" self shipment_number data.

Definition Shipment_remove (self : Resource) (shipment_number : scalar)
    (data : loc) : M pyval :=
  Shipment_action "/remove" self shipment_number data.

(** Method resolution for the two methods a subclass overrides. *)
Definition get (self : Resource) (id : scalar) : M pyval :=
  match cls self with
  | Variant product_id => Variant_get self product_id id
  | _ => Resource_get self id
  end.

Definition update (self : Resource) (id : scalar) (data : loc) : M pyval :=
  match cls self with
  | Shipment _ => Shipment_update self id data
  | _ => Resource_update self id data
  end.

(** [Pagination.next_page]; [None] is Python's [None]. *)
Definition Pagination_next_page (self : loc) : M (option loc) :=
  h <- Pagination_has_next self ;;
  if h then
    p <- read_pagination self ;;
    page <- Pagination_page self ;;
    r <- Resource_find (resource p) (page + 1) (filters p) ;;
    ret (Some r)
  else ret None.

(** *** Callers *)

(** The five operations every handle offers, with their arguments, and
    what they hand back. *)
Inductive call :=
| Find (page : Z) (filters : option loc)
| Get (id : scalar)
| Create (data : loc)
| Update (id : scalar) (data : loc)
| Delete (id : scalar).

Inductive returned :=
| RPagination (p : loc)
| RJson (v : pyval).

Definition invoke (self : Resource) (c : call) : M returned :=
  match c with
  | Find page filters =>
      p <- Resource_find self page filters ;; ret (RPagination p)
  | Get id => v <- get self id ;; ret (RJson v)
  | Create data => v <- Resource_create self data ;; ret (RJson v)
  | Update id data => v <- update self id data ;; ret (RJson v)
  | Delete id => v <- Resource_delete self id ;; ret (RJson v)
  end.

(** How a [for] statement over a Pagination ends. *)
Inductive finish :=
| Exhausted
| Raised (e : exn)
| OutOfFuel.

(** [for x in it: ...] with a body that only takes [x]: [next] is called
    until it raises; [StopIteration] ends the loop, any other exception
    leaves it.  The items taken so far come with the way the loop ended. *)
Fixpoint pull (fuel : nat) (it : loc) (w : world)
    : (list pyval * finish) * world :=
  match fuel with
  | O => (([], OutOfFuel), w)
  | S n =>
      match Pagination_next it w with
      | (inr x, w') =>
          let '((xs, f), w'') := pull n it w' in ((x :: xs, f), w'')
      | (inl StopIteration, w') => (([], Exhausted), w')
      | (inl e, w') => (([], Raised e), w')
      end
  end.

Definition for_loop (fuel : nat) (self : loc) (w : world)
    : (list pyval * finish) * world :=
  match Pagination_iter self w with
  | (inr it, w') => pull fuel it w'
  | (inl e, w') => (([], Raised e), w')
  end.

(** The fields [Product.load_payload] copies. *)
Definition product_fields : list string :=
  ["name"; "price"; "shipping_category_id"; "sku"; "description";
   "display_price"; "available_on"; "meta_description"; "meta_keywords";
   "weight"; "height"; "width"; "depth"; "cost_price"].

Definition product_key (field : string) : string :=
  "product[" +:+ field +:+ "]".

(** What [Shipment.load_payload] leaves in [data]. *)
Definition shipment_shape (d : dict) : dict :=
  move_key "number" "shipment[number]"
    (move_key "tracking" "shipment[tracking]" d).

(** *** Sample objects *)

Definition shop : connection_t := Spree "http://shop.test/api" "secret".

(** A session that answers every request with the same response. *)
Definition answer_with (r : response) : list request -> request -> result response :=
  fun _ _ => inr r.

(** A stand-in for [int] on texts that accepts none. *)
Definition no_text_numbers : string -> result Z := fun _ => inl ValueError.

Definition session_404 := answer_with (Response 404 None).

Definition session_304 := answer_with (Response 304 (Some (PDict ∅))).

Definition session_ok (v : pyval) := answer_with (Response 200 (Some v)).

Definition page_fields (count : Z) : dict :=
  <["count" := PInt count]>
    (<["current_page" := PInt 1]>
       (<["pages" := PInt 3]>
          {[ "products" := PList [PStr "shirt"; PStr "mug"] ]})).

(** A Pagination over two items that reports [count] of them. *)
Definition page_of (count : Z) : Pagination :=
  mkPagination (PDict (page_fields count)) (PList [PStr "shirt"; PStr "mug"])
    (-1) (Spree_product shop) None.

Definition world_with_page (count : Z) : world :=
  World [∅; ∅] [page_of count] [].

(** A store whose third dict is [d]. *)
Definition world_with_dict (d : dict) : world := World [∅; ∅; d] [] [].


(** *** More callers *)

(** The HTTP method of each operation. *)
Definition method_of (c : call) : method :=
  match c with
  | Find _ _ | Get _ => GET
  | Create _ => POST
  | Update _ _ => PUT
  | Delete _ => DELETE
  end.

(** The dict a call gets from its caller, if any. *)
Definition dict_of (c : call) : option loc :=
  match c with
  | Find _ filters => filters
  | Create data | Update _ data => Some data
  | Get _ | Delete _ => None
  end.

(** [n] calls of [next] in a row, each with what it returned or raised. *)
Fixpoint next_calls (n : nat) (it : loc) (w : world)
    : list (result pyval) * world :=
  match n with
  | O => ([], w)
  | S n =>
      let '(r, w1) := Pagination_next it w in
      let '(rs, w2) := next_calls n it w1 in
      (r :: rs, w2)
  end.

(** The closed form the [j]-th call of [next] is compared with: an item
    while [j] is below the count and inside the list, [IndexError] while it
    is below the count and outside the list, [StopIteration] from the
    count on. *)
Definition nth_outcome (count : Z) (l : list pyval) (j : nat) : result pyval :=
  if Z.of_nat j <? count
  then match l !! j with
       | Some x => inr x
       | None => inl IndexError
       end
  else inl StopIteration.

(** *** More sample objects *)

(** A session that cannot reach the server. *)
Definition session_down : list request -> request -> result response :=
  fun _ _ => inl (RequestException "connection refused").

(** A session whose answers carry no JSON. *)
Definition session_garbled := answer_with (Response 200 None).

(** A store holding one Pagination whose payload is an empty object. *)
Definition world_with_bare_page : world :=
  World [∅; ∅]
    [mkPagination (PDict ∅) (PList []) (-1) (Spree_product shop) None] [].

(** *** More proof automation *)

(** Lookups in a store after writes elsewhere and allocations. *)
Ltac frame_dicts :=
  intros; simpl;
  repeat first
    [ rewrite list_lookup_insert_ne by (simpl; congruence || lia)
    | rewrite lookup_app_l by (simpl; rewrite ?length_insert, ?length_app; simpl; lia)
    | rewrite length_insert
    | rewrite length_app ];
  try done.


(** ** Properties *)

(** *** Proof automation *)

Ltac unfold_py :=
  unfold Shipment_action, Shipment_update, Variant_get, Resource_find,
    Resource_get, Resource_create, Resource_update, Resource_delete,
    load_payload, Product_load_payload, StockItem_load_payload,
    Shipment_load_payload, or_new_dict, Pagination_init,
    validate_response, raise_for_status, response_json, session_request,
    modify_dict, read_dict, write_dict, new_dict, new_pagination,
    read_pagination, write_pagination, bind, lift, raise, ret in *.

Ltac case_step :=
  match goal with
  | |- context [match ?x with _ => _ end] =>
      lazymatch x with
      | context [match _ with _ => _ end] => fail
      | _ => destruct x eqn:?
      end
  end.

Ltac case_step_in H :=
  match type of H with
  | context [match ?x with _ => _ end] =>
      lazymatch x with
      | context [match _ with _ => _ end] => fail
      | _ => destruct x eqn:?
      end
  end.

Ltac bool_to_prop :=
  rewrite ?andb_true_iff, ?andb_false_iff, ?Z.eqb_eq, ?Z.eqb_neq,
    ?Z.leb_le, ?Z.leb_gt, ?Z.ltb_lt, ?Z.ltb_ge in *.

(** Evaluate the comparisons of two literal keys. *)
Ltac eval_eqb :=
  repeat match goal with
    | |- context [String.eqb ?a ?b] =>
        let r := eval vm_compute in (String.eqb a b) in
        change (String.eqb a b) with r
    end;
  cbv beta iota.

Ltac by_field f :=
  intros _; exists f; split;
  [apply list_elem_of_In; simpl; tauto | reflexivity].

(** *** Stores and lists *)

Lemma lookup_snoc {A} (l : list A) (x : A) : (l ++ [x]) !! length l = Some x.
Proof. by rewrite list_lookup_middle. Qed.

Lemma insert_snoc {A} (l : list A) (x y : A) :
  <[length l := y]> (l ++ [x]) = l ++ [y].
Proof.
  rewrite insert_app_r_alt; [|lia]. by rewrite Nat.sub_diag.
Qed.

Lemma snoc_inj {A} (l : list A) (x y : A) : l ++ [x] = l ++ [y] -> x = y.
Proof. intros H. apply app_inv_head in H. congruence. Qed.

Lemma snoc_neq {A} (l : list A) (x : A) : l ≠ l ++ [x].
Proof.
  intros H. apply (f_equal length) in H. rewrite length_app in H.
  simpl in H. lia.
Qed.

Lemma getitem_str_exn v k e :
  getitem_str v k = inl e -> e = TypeError \/ e = KeyError (PStr k).
Proof.
  destruct v; simpl; try (intros [= <-]; by left).
  destruct (m !! k); intros [= <-]. by right.
Qed.

Lemma unpack1_exn v e : unpack1 v = inl e -> e = ValueError \/ e = TypeError.
Proof.
  destruct v as [| | | |l|m]; simpl; try (intros [= <-]; by right).
  - destruct (Nat.eqb _ _); intros [= <-]. by left.
  - destruct l as [|x [|y l]]; intros [= <-]; by left.
  - destruct (map_to_list m) as [|[k a] [|y l]]; intros [= <-]; by left.
Qed.

(** [find()] on any handle: one GET, to the handle's URL. *)
Lemma Resource_find_no_filters (self : Resource) (page : Z) (w : world) :
  exists r w',
    Resource_find self page None w = (r, w') /\
    sent w' = sent w ++
      [Request GET (PStr (url self)) (api_key (connection self))
         (Some (<["per_page" := PInt (per_page self)]>
                  (<["page" := PInt page]> ∅))) None].
Proof.
  unfold_py. simpl. rewrite lookup_snoc. simpl. rewrite insert_snoc, lookup_snoc.
  simpl. repeat (case_step; simpl); eexists _, _; split; reflexivity.
Qed.

(** C8.  On every handle, [find()] with no page and no filters issues one
    GET to the handle's URL whose query parameters hold [page = 1] and
    [per_page] equal to the handle's page size; the handles a connection
    makes have page size 25. *)
Theorem find_without_arguments (self : Resource) (w : world) :
  (exists r w' rq query,
     Resource_find self 1 None w = (r, w') /\
     sent w' = sent w ++ [rq] /\
     meth rq = GET /\
     target rq = PStr (url self) /\
     params rq = Some query /\
     query !! "page" = Some (PInt 1) /\
     query !! "per_page" = Some (PInt (per_page self))) /\
  (forall (c : connection_t) (location_id : Z) (product_id order_number : scalar),
     per_page (Spree_product c) = 25 /\
     per_page (Spree_order c) = 25 /\
     per_page (Spree_stock_locations c) = 25 /\
     per_page (Spree_get_stock_item c location_id) = 25 /\
     per_page (Spree_variant c product_id) = 25 /\
     per_page (Spree_shipment c order_number) = 25).
Proof.
  split; [|done].
  destruct (Resource_find_no_filters self 1 w) as (r & w' & Hfind & Hsent).
  eexists r, w', _, _. split_and!; [done|exact Hsent|done|done|done|..].
  - by rewrite lookup_insert_ne, lookup_insert_eq.
  - by rewrite lookup_insert_eq.
Qed.

(** C4.  What the code does on a Variant handle made without a product id:
    [path] is ['/products/None/variants'], not ['/variants'], and [find]
    sends its GET there. *)
Theorem variant_path_without_product_id (c : connection_t) (pp : Z)
    (w : world) :
  let self := mkResource c pp (Variant SNone) in
  path self = "/products/None/variants" /\
  path self ≠ "/variants" /\
  exists r w' rq,
    Resource_find self 1 None w = (r, w') /\
    sent w' = sent w ++ [rq] /\
    target rq = PStr (conn_url c +:+ "/products/None/variants").
Proof.
  intros self. split_and!; [done|done|].
  destruct (Resource_find_no_filters self 1 w) as (r & w' & Hfind & Hsent).
  eexists r, w', _. split_and!; [done|exact Hsent|done].
Qed.

(** C5.  On a Variant handle made without a product id, [get(id)] issues a
    GET to ['/variants'] with the query parameter [q[id_eq] = id]; on a 2xx
    answer whose body holds a list under ['variants'], it returns the
    element of a one-element list and fails on an empty or longer list. *)
Theorem variant_get_without_product_id (c : connection_t) (pp : Z)
    (id : scalar) (w : world) :
  let self := mkResource c pp (Variant SNone) in
  let rq := Request GET (PStr (conn_url c +:+ "/variants")) (api_key c)
              (Some {[ "q[id_eq]" := pyval_of_scalar id ]}) None in
  sent (get self id w).2 = sent w ++ [rq] /\
  forall (resp : response) (m : dict) (l : list pyval),
    send (sent w) rq = inr resp ->
    200 <= status_code resp < 300 ->
    json_body resp = Some (PDict m) ->
    m !! "variants" = Some (PList l) ->
    (get self id w).1 =
      match l with
      | [x] => inr x
      | _ => inl ValueError
      end.
Proof.
  intros self rq. subst self rq. unfold get. simpl. unfold Variant_get. simpl.
  unfold_py. simpl. split.
  - repeat (case_step; simpl); reflexivity.
  - intros resp m l Hsend Hst Hj Hm. rewrite Hsend.
    replace (status_code resp =? 404) with false
      by (symmetry; apply Z.eqb_neq; lia).
    replace (400 <=? status_code resp) with false
      by (symmetry; apply Z.leb_gt; lia).
    simpl. rewrite Hj. unfold item_attribute. simpl. rewrite Hm. simpl.
    by destruct l as [|x [|y l]].
Qed.

Lemma Pagination_next_page_cases (self : loc) (w : world) (p : Pagination)
    (m : dict) (page pages : Z) :
  paginations w !! self = Some p ->
  data p = PDict m ->
  m !! "current_page" = Some (PInt page) ->
  m !! "pages" = Some (PInt pages) ->
  (exists b, Pagination_has_next self w = (inr b, w) /\
             (b = true <-> pages > page)) /\
  (pages > page ->
     Pagination_next_page self w =
       match Resource_find (resource p) (page + 1) (filters p) w with
       | (inr r, w') => (inr (Some r), w')
       | (inl e, w') => (inl e, w')
       end) /\
  (¬ pages > page -> Pagination_next_page self w = (inr None, w)).
Proof.
  intros Hp Hd Hpage Hpages.
  assert (Hn : Pagination_has_next self w = (inr (pages >? page), w)).
  { unfold Pagination_has_next, Pagination_pages, Pagination_page,
      read_pagination, bind, lift, ret.
    by repeat (rewrite ?Hp, ?Hd, ?Hpage, ?Hpages; simpl). }
  assert (Hb : (pages >? page) = true <-> pages > page).
  { rewrite Z.gtb_ltb, Z.ltb_lt. lia. }
  split_and!.
  - eexists. split; [exact Hn | exact Hb].
  - intros Hgt. apply Hb in Hgt.
    unfold Pagination_next_page, bind at 1. rewrite Hn, Hgt.
    unfold Pagination_page, read_pagination, bind, lift, ret.
    repeat (rewrite ?Hp, ?Hd, ?Hpage; simpl).
    by destruct (Resource_find _ _ _ w) as [[e|r] w'].
  - intros Hle. unfold Pagination_next_page, bind. rewrite Hn.
    destruct (pages >? page); [|done]. exfalso. apply Hle, Hb. done.
Qed.

(** C2.  For a Pagination whose payload carries integer [current_page] and
    [pages]: [has_next] is true exactly when [pages > page]; when it is,
    [next_page] is the owning resource's [find] at [page + 1] with the
    filters the Pagination stores; when it is not, [next_page] returns
    nothing. *)
Theorem has_next_and_next_page (self : loc) (w : world) (p : Pagination)
    (m : dict) (page pages : Z) :
  paginations w !! self = Some p ->
  data p = PDict m ->
  m !! "current_page" = Some (PInt page) ->
  m !! "pages" = Some (PInt pages) ->
  (exists b, Pagination_has_next self w = (inr b, w) /\
             (b = true <-> pages > page)) /\
  (pages > page ->
     Pagination_next_page self w =
       match Resource_find (resource p) (page + 1) (filters p) w with
       | (inr r, w') => (inr (Some r), w')
       | (inl e, w') => (inl e, w')
       end) /\
  (¬ pages > page -> Pagination_next_page self w = (inr None, w)).
Proof. apply Pagination_next_page_cases. Qed.

(** One call of [next] on a Pagination whose items are the list [l] and
    whose next position is [i]. *)
Lemma Pagination_next_step (it : loc) (w : world) (p : Pagination) (m : dict)
    (v : pyval) (count : Z) (l : list pyval) (i : nat) :
  paginations w !! it = Some p ->
  data p = PDict m -> m !! "count" = Some v -> py_int v = inr count ->
  items p = PList l ->
  current_index p = Z.of_nat i - 1 ->
  Pagination_next it w =
    if Z.of_nat i <? count
    then (match l !! i with Some x => inr x | None => inl IndexError end,
          World (dicts w)
            (<[it := mkPagination (data p) (items p) (Z.of_nat i)
                       (resource p) (filters p)]> (paginations w))
            (sent w))
    else (inl StopIteration, w).
Proof.
  intros Hp Hd Hc Hv Hl Hi.
  unfold Pagination_next, Pagination_count, read_pagination, write_pagination,
    bind, lift, raise.
  repeat (rewrite ?Hp, ?Hd, ?Hc, ?Hv; simpl).
  rewrite Hi.
  replace (Z.of_nat i - 1 <? count - 1) with (Z.of_nat i <? count)
    by (destruct (Z.ltb_spec (Z.of_nat i) count),
          (Z.ltb_spec (Z.of_nat i - 1) (count - 1)); lia || done).
  destruct (Z.of_nat i <? count); [|done].
  rewrite list_lookup_insert_eq by (by eapply lookup_lt_Some).
  simpl. rewrite Hl. unfold getitem_int.
  replace (Z.of_nat i - 1 + 1) with (Z.of_nat i) by lia.
  destruct (Z.ltb_spec (Z.of_nat i) 0); [lia|].
  rewrite Nat2Z.id.
  destruct (Z.ltb_spec (Z.of_nat i) (Z.of_nat (length l))) as [Hlt|Hge].
  - replace (0 <=? Z.of_nat i) with true by (symmetry; apply Z.leb_le; lia).
    done.
  - rewrite andb_false_r, lookup_ge_None_2 by lia. done.
Qed.

Lemma world_insert_id (it : loc) (w : world) (p : Pagination) :
  paginations w !! it = Some p ->
  World (dicts w) (<[it := p]> (paginations w)) (sent w) = w.
Proof. intros H. rewrite list_insert_id by done. by destruct w. Qed.

(** The loop over a Pagination whose items cover the reported count. *)
Lemma pull_within (it : loc) (m : dict) (v : pyval) (count : Z)
    (l : list pyval) (fuel : nat) :
  m !! "count" = Some v -> py_int v = inr count ->
  count <= Z.of_nat (length l) ->
  forall (i : nat) (w : world) (p : Pagination),
    paginations w !! it = Some p ->
    data p = PDict m -> items p = PList l ->
    current_index p = Z.of_nat i - 1 ->
    (Z.to_nat count - i < fuel)%nat ->
    pull fuel it w =
      ((drop i (take (Z.to_nat count) l), Exhausted),
       World (dicts w)
         (<[it := mkPagination (data p) (items p)
                    (Z.max (Z.of_nat i - 1) (count - 1))
                    (resource p) (filters p)]> (paginations w))
         (sent w)).
Proof.
  intros Hc Hv Hlen. induction fuel as [|n IH]; intros i w p Hp Hd Hl Hi Hf.
  { lia. }
  simpl. rewrite (Pagination_next_step it w p m v count l i) by done.
  destruct (Z.ltb_spec (Z.of_nat i) count) as [Hlt|Hge].
  - destruct (lookup_lt_is_Some_2 l i) as [x Hx]; [lia|].
    rewrite Hx.
    set (p1 := mkPagination (data p) (items p) (Z.of_nat i) (resource p)
                 (filters p)).
    set (w1 := World (dicts w) (<[it := p1]> (paginations w)) (sent w)).
    assert (Hp1 : paginations w1 !! it = Some p1).
    { apply list_lookup_insert_eq. by eapply lookup_lt_Some. }
    rewrite (IH (S i) w1 p1 Hp1 Hd Hl) by (simpl; lia).
    simpl. rewrite list_insert_insert_eq.
    rewrite (drop_S (take (Z.to_nat count) l) x i)
      by (rewrite lookup_take_lt by lia; done).
    by replace (Z.max (Z.of_nat (S i) - 1) (count - 1))
      with (Z.max (Z.of_nat i - 1) (count - 1)) by lia.
  - rewrite drop_ge by (rewrite length_take; lia).
    replace (Z.max (Z.of_nat i - 1) (count - 1)) with (current_index p) by lia.
    f_equal. symmetry.
    replace (mkPagination (data p) (items p) (current_index p) (resource p)
               (filters p)) with p by (by destruct p).
    by apply world_insert_id.
Qed.

(** The loop over a Pagination that holds fewer items than it reports. *)
Lemma pull_short (it : loc) (m : dict) (v : pyval) (count : Z)
    (l : list pyval) (fuel : nat) :
  m !! "count" = Some v -> py_int v = inr count ->
  Z.of_nat (length l) < count ->
  forall (i : nat) (w : world) (p : Pagination),
    paginations w !! it = Some p ->
    data p = PDict m -> items p = PList l ->
    current_index p = Z.of_nat i - 1 ->
    (i <= length l)%nat ->
    (length l - i < fuel)%nat ->
    pull fuel it w =
      ((drop i l, Raised IndexError),
       World (dicts w)
         (<[it := mkPagination (data p) (items p) (Z.of_nat (length l))
                    (resource p) (filters p)]> (paginations w))
         (sent w)).
Proof.
  intros Hc Hv Hlen. induction fuel as [|n IH]; intros i w p Hp Hd Hl Hi Hil Hf.
  { lia. }
  simpl. rewrite (Pagination_next_step it w p m v count l i) by done.
  destruct (Z.ltb_spec (Z.of_nat i) count) as [Hlt|Hge]; [|lia].
  destruct (l !! i) as [x|] eqn:Hx.
  - apply lookup_lt_Some in Hx as Hil'.
    set (p1 := mkPagination (data p) (items p) (Z.of_nat i) (resource p)
                 (filters p)).
    set (w1 := World (dicts w) (<[it := p1]> (paginations w)) (sent w)).
    assert (Hp1 : paginations w1 !! it = Some p1).
    { apply list_lookup_insert_eq. by eapply lookup_lt_Some. }
    rewrite (IH (S i) w1 p1 Hp1 Hd Hl) by (simpl; lia).
    simpl. rewrite list_insert_insert_eq.
    by rewrite (drop_S l x i).
  - apply lookup_ge_None_1 in Hx.
    assert (i = length l) as -> by lia.
    by rewrite drop_all.
Qed.

(** C3.  Iterating a Pagination whose item list is at least as long as its
    reported count yields the first [count] items in order and then ends;
    no request is made; iterating it again yields nothing and leaves
    everything as it is. *)
Theorem iteration_yields_count_items (self : loc) (w : world)
    (p : Pagination) (m : dict) (v : pyval) (count : Z) (l : list pyval) :
  paginations w !! self = Some p ->
  data p = PDict m -> m !! "count" = Some v -> py_int v = inr count ->
  items p = PList l ->
  current_index p = -1 ->
  count <= Z.of_nat (length l) ->
  exists w',
    (forall fuel, (Z.to_nat count < fuel)%nat ->
       for_loop fuel self w = ((take (Z.to_nat count) l, Exhausted), w')) /\
    (0 <= count -> Z.of_nat (length (take (Z.to_nat count) l)) = count) /\
    sent w' = sent w /\
    (forall fuel, (0 < fuel)%nat ->
       for_loop fuel self w' = (([], Exhausted), w')).
Proof.
  intros Hp Hd Hc Hv Hl Hi Hlen.
  set (p' := mkPagination (data p) (items p) (Z.max (Z.of_nat 0 - 1) (count - 1))
               (resource p) (filters p)).
  exists (World (dicts w) (<[self := p']> (paginations w)) (sent w)).
  split_and!.
  - intros fuel Hf. unfold for_loop, Pagination_iter, ret.
    rewrite (pull_within self m v count l fuel Hc Hv Hlen 0%nat w p)
      by (done || lia).
    done.
  - intros H0. rewrite length_take. lia.
  - done.
  - intros fuel Hf. unfold for_loop, Pagination_iter, ret.
    set (w' := World _ _ _).
    assert (Hp' : paginations w' !! self = Some p').
    { apply list_lookup_insert_eq. by eapply lookup_lt_Some. }
    rewrite (pull_within self m v count l fuel Hc Hv Hlen
               (Z.to_nat (Z.max 0 count)) w' p' Hp' Hd Hl)
      by (simpl; lia).
    rewrite drop_ge by (rewrite length_take; lia).
    f_equal. simpl. rewrite list_insert_insert_eq.
    subst w' p'. simpl. do 3 f_equal. lia.
Qed.

(** C9.  Iteration is bounded by the reported count: when the item list is
    shorter than it, the loop yields every item and then fails with
    [IndexError] instead of ending. *)
Theorem iteration_fails_when_items_short (self : loc) (w : world)
    (p : Pagination) (m : dict) (v : pyval) (count : Z) (l : list pyval) :
  paginations w !! self = Some p ->
  data p = PDict m -> m !! "count" = Some v -> py_int v = inr count ->
  items p = PList l ->
  current_index p = -1 ->
  Z.of_nat (length l) < count ->
  forall fuel, (length l < fuel)%nat ->
    exists w',
      for_loop fuel self w = ((l, Raised IndexError), w') /\
      sent w' = sent w.
Proof.
  intros Hp Hd Hc Hv Hl Hi Hlen fuel Hf.
  eexists. unfold for_loop, Pagination_iter, ret.
  rewrite (pull_short self m v count l fuel Hc Hv Hlen 0%nat w p)
    by (done || lia).
  split; [reflexivity | done].
Qed.

(** What [find] builds from an answer that passes validation. *)
Lemma Resource_find_answer (self : Resource) (page : Z) (filters : option loc)
    (w : world) (rq : request) (resp : response) (body : pyval) :
  sent (Resource_find self page filters w).2 = sent w ++ [rq] ->
  send (sent w) rq = inr resp ->
  ¬ 400 <= status_code resp < 600 ->
  json_body resp = Some body ->
  match getitem_str body (item_attribute self) with
  | inl e =>
      (Resource_find self page filters w).1 = inl e /\
      paginations (Resource_find self page filters w).2 = paginations w
  | inr its =>
      (Resource_find self page filters w).1 = inr (length (paginations w)) /\
      paginations (Resource_find self page filters w).2 =
        paginations w ++ [mkPagination body its (-1) self filters]
  end.
Proof.
  intros Hsent Hsend Hst Hbody.
  destruct (Resource_find self page filters w) as [r w'] eqn:E. simpl in *.
  unfold_py; simpl in *.
  repeat (case_step_in E; simpl in * ).
  all: simplify_eq; simpl in *.
  all: try (exfalso; eapply snoc_neq; eassumption).
  all: apply snoc_inj in Hsent; subst rq.
  all: try congruence.
  all: match goal with
       | Hs : send ?a ?b = inr ?x, Ht : send ?a ?b = inr ?y |- _ =>
           assert (x = y) by congruence; subst x; clear Hs
       end.
  all: bool_to_prop; try lia.
  all: simplify_eq.
  all: repeat match goal with
         | Hx : ?x = _ |- context [?x] => rewrite Hx
         end; done.
Qed.

(** [find] returns a Pagination whenever the answer passes validation and
    its body is an object that holds the handle's item key. *)
Lemma Resource_find_returns (self : Resource) (page : Z) (filters : option loc)
    (w : world) (r : result loc) (w' : world) (rq : request)
    (resp : response) (m : dict) (its : pyval) :
  Resource_find self page filters w = (r, w') ->
  sent w' = sent w ++ [rq] ->
  send (sent w) rq = inr resp ->
  ¬ 400 <= status_code resp < 600 ->
  json_body resp = Some (PDict m) ->
  m !! item_attribute self = Some its ->
  r = inr (length (paginations w)) /\
  paginations w' !! length (paginations w)
    = Some (mkPagination (PDict m) its (-1) self filters).
Proof.
  intros Hfind Hsent Hsend Hst Hbody Hits.
  pose proof (Resource_find_answer self page filters w rq resp (PDict m))
    as Hans.
  rewrite Hfind in Hans. simpl in Hans. rewrite Hits in Hans.
  destruct (Hans Hsent Hsend Hst Hbody) as [-> ->].
  split; [done | apply lookup_snoc].
Qed.

Lemma Resource_find_with_filters (self : Resource) (page : Z) (l : loc)
    (d : dict) (w : world) :
  dicts w !! l = Some d -> d ≠ ∅ ->
  let d' := <["per_page" := PInt (per_page self)]> (<["page" := PInt page]> d) in
  let rq := Request GET (PStr (url self)) (api_key (connection self))
              (Some d') None in
  exists r w',
    Resource_find self page (Some l) w = (r, w') /\
    sent w' = sent w ++ [rq] /\
    dicts w' = <[l := d']> (dicts w) /\
    forall pg, r = inr pg ->
      exists p, paginations w' !! pg = Some p /\
                filters p = Some l /\ resource p = self.
Proof.
  intros Hl Hd d' rq. subst d' rq.
  assert (Hlt : (l < length (dicts w))%nat) by (by eapply lookup_lt_Some).
  unfold_py. rewrite Hl. simpl.
  rewrite bool_decide_false by done. simpl.
  rewrite Hl. simpl. rewrite list_lookup_insert_eq by done. simpl.
  repeat (case_step; simpl); eexists _, _; split_and!; try reflexivity;
    intros pg [= <-].
  eexists. split_and!; [apply lookup_snoc | done | done].
Qed.

(** C10.  [find] with a non-empty filters dict writes ['page'] and
    ['per_page'] into that very dict and sends it as the query, whatever
    the answer.  When the answer passes validation and its body holds the
    item key, [find] returns a Pagination, and that Pagination stores the
    same dict; [next_page] then sends these entries again, with ['page']
    overwritten by the next page number. *)
Theorem find_mutates_filters_in_place (self : Resource) (page : Z) (l : loc)
    (d : dict) (w : world) :
  dicts w !! l = Some d -> d ≠ ∅ ->
  let d' := <["per_page" := PInt (per_page self)]> (<["page" := PInt page]> d) in
  exists r w',
    Resource_find self page (Some l) w = (r, w') /\
    dicts w' !! l = Some d' /\
    d' !! "page" = Some (PInt page) /\
    d' !! "per_page" = Some (PInt (per_page self)) /\
    sent w' = sent w ++
      [Request GET (PStr (url self)) (api_key (connection self))
         (Some d') None] /\
    (forall (resp : response) (m : dict) (its : pyval),
       send (sent w)
         (Request GET (PStr (url self)) (api_key (connection self))
            (Some d') None) = inr resp ->
       ¬ 400 <= status_code resp < 600 ->
       json_body resp = Some (PDict m) ->
       m !! item_attribute self = Some its ->
       exists pg p,
         r = inr pg /\
         paginations w' !! pg = Some p /\
         filters p = Some l /\
         data p = PDict m /\ items p = its) /\
    (forall pg, r = inr pg ->
      exists p,
        paginations w' !! pg = Some p /\
        filters p = Some l /\
        forall (m : dict) (current pages : Z),
          data p = PDict m ->
          m !! "current_page" = Some (PInt current) ->
          m !! "pages" = Some (PInt pages) ->
          pages > current ->
          exists r2 w2 rq,
            Pagination_next_page pg w' = (r2, w2) /\
            sent w2 = sent w' ++ [rq] /\
            params rq =
              Some (<["per_page" := PInt (per_page self)]>
                      (<["page" := PInt (current + 1)]> d'))).
Proof.
  intros Hl Hd d'.
  assert (Hlt : (l < length (dicts w))%nat) by (by eapply lookup_lt_Some).
  destruct (Resource_find_with_filters self page l d w Hl Hd)
    as (r & w' & Hfind & Hsent & Hdicts & Hpg).
  exists r, w'. split_and!.
  - done.
  - rewrite Hdicts. by apply list_lookup_insert_eq.
  - subst d'. by rewrite lookup_insert_ne, lookup_insert_eq.
  - subst d'. by rewrite lookup_insert_eq.
  - exact Hsent.
  - intros resp m its Hsend Hst Hbody Hits.
    destruct (Resource_find_returns self page (Some l) w r w' _ resp m its
                Hfind Hsent Hsend Hst Hbody Hits) as [Hr Hp].
    eexists _, _. split_and!; [exact Hr | exact Hp | done | done | done].
  - intros pg Hr. destruct (Hpg pg Hr) as (p & Hp & Hf & Hres).
    exists p. split_and!; [done|done|].
    intros m current pages Hdata Hcur Hpages Hgt.
    destruct (Pagination_next_page_cases pg w' p m current pages
                Hp Hdata Hcur Hpages) as (_ & Hnext & _).
    rewrite (Hnext Hgt), Hf, Hres.
    assert (Hl' : dicts w' !! l = Some d').
    { rewrite Hdicts. by apply list_lookup_insert_eq. }
    assert (Hd' : d' ≠ ∅).
    { subst d'. apply insert_non_empty. }
    destruct (Resource_find_with_filters self (current + 1) l d' w' Hl' Hd')
      as (r2 & w2 & Hfind2 & Hsent2 & _).
    rewrite Hfind2.
    destruct r2 as [e|r2]; eexists _, _, _; (split_and!; [reflexivity|exact Hsent2|done]).
Qed.

Lemma lookup_copy_field (d : dict) (field key : string) (payload : dict)
    (k : string) :
  copy_field d field key payload !! k =
    match (if String.eqb key k then d !! field else None) with
    | Some v => Some v
    | None => payload !! k
    end.
Proof.
  unfold copy_field. destruct (String.eqb_spec key k) as [->|Hne].
  - destruct (d !! field); [by rewrite lookup_insert_eq | done].
  - destruct (d !! field); [by rewrite lookup_insert_ne | done].
Qed.

Lemma lookup_singleton_eqb (key : string) (v : pyval) (k : string) :
  ({[ key := v ]} : dict) !! k = if String.eqb key k then Some v else None.
Proof.
  destruct (String.eqb_spec key k) as [->|Hne].
  - by rewrite lookup_singleton_eq.
  - by rewrite lookup_singleton_ne.
Qed.

(** C6 (amended).  For every input holding [name], [Product.create] posts
    one payload: each listed field of the input appears under
    [product[field]] with the input's value, a listed field the input lacks
    is left out, and nothing else is in it; an input with only [name] and
    [price] gives exactly [product[name]] and [product[price]]. *)
Theorem product_create_payload (self : Resource) (data : loc) (d : dict)
    (name : pyval) (w : world) :
  cls self = Product ->
  dicts w !! data = Some d ->
  d !! "name" = Some name ->
  exists r w' payload,
    Resource_create self data w = (r, w') /\
    sent w' = sent w ++
      [Request POST (PStr (url self)) (api_key (connection self))
         None (Some payload)] /\
    (forall field, field ∈ product_fields ->
       payload !! product_key field = d !! field) /\
    (forall key, is_Some (payload !! key) ->
       exists field, field ∈ product_fields /\ key = product_key field) /\
    (forall price, d = <["price" := price]> {[ "name" := name ]} ->
       payload =
         <["product[price]" := price]> {[ "product[name]" := name ]}).
Proof.
  intros Hcls Hd Hname.
  unfold Resource_create, load_payload. rewrite Hcls.
  unfold Product_load_payload, getitem_str.
  unfold_py. rewrite Hd. simpl. rewrite Hname. simpl. rewrite lookup_snoc.
  simpl.
  match goal with
  | |- context [Some ?pl] =>
      lazymatch pl with copy_field _ _ _ _ => set (payload := pl) end
  end.
  assert (Hfields : forall field, field ∈ product_fields ->
            payload !! product_key field = d !! field).
  { intros field Hin. unfold product_fields in Hin.
    repeat (apply elem_of_cons in Hin as [->|Hin]);
      [..|by apply elem_of_nil in Hin];
      subst payload; cbv [product_key String.append];
      rewrite !lookup_copy_field, lookup_singleton_eqb; eval_eqb;
      first [done | by match goal with
                          | |- context [d !! ?k] => destruct (d !! k)
                          end]. }
  assert (Hkeys : forall key, is_Some (payload !! key) ->
            exists field, field ∈ product_fields /\ key = product_key field).
  { intros key. subst payload.
    rewrite !lookup_copy_field, lookup_singleton_eqb.
    destruct (String.eqb_spec "product[cost_price]" key) as [<-|_];
      [by_field "cost_price"|cbv beta iota].
    destruct (String.eqb_spec "product[depth]" key) as [<-|_];
      [by_field "depth"|cbv beta iota].
    destruct (String.eqb_spec "product[width]" key) as [<-|_];
      [by_field "width"|cbv beta iota].
    destruct (String.eqb_spec "product[height]" key) as [<-|_];
      [by_field "height"|cbv beta iota].
    destruct (String.eqb_spec "product[weight]" key) as [<-|_];
      [by_field "weight"|cbv beta iota].
    destruct (String.eqb_spec "product[meta_keywords]" key) as [<-|_];
      [by_field "meta_keywords"|cbv beta iota].
    destruct (String.eqb_spec "product[meta_description]" key) as [<-|_];
      [by_field "meta_description"|cbv beta iota].
    destruct (String.eqb_spec "product[available_on]" key) as [<-|_];
      [by_field "available_on"|cbv beta iota].
    destruct (String.eqb_spec "product[display_price]" key) as [<-|_];
      [by_field "display_price"|cbv beta iota].
    destruct (String.eqb_spec "product[description]" key) as [<-|_];
      [by_field "description"|cbv beta iota].
    destruct (String.eqb_spec "product[sku]" key) as [<-|_];
      [by_field "sku"|cbv beta iota].
    destruct (String.eqb_spec "product[shipping_category_id]" key) as [<-|_];
      [by_field "shipping_category_id"|cbv beta iota].
    destruct (String.eqb_spec "product[price]" key) as [<-|_];
      [by_field "price"|cbv beta iota].
    destruct (String.eqb_spec "product[name]" key) as [<-|_];
      [by_field "name"|cbv beta iota].
    by intros [? ?]. }
  assert (Hpair : forall price, d = <["price" := price]> {[ "name" := name ]} ->
            payload =
              <["product[price]" := price]> {[ "product[name]" := name ]}).
  { intros price ->. subst payload. clear. vm_compute. reflexivity. }
  repeat (case_step; simpl); eexists _, _, _; split_and!; done.
Qed.

Lemma append_nonempty (a b : string) :
  String.eqb (a +:+ "/" +:+ b) EmptyString = false.
Proof. by destruct a. Qed.

(** [ready], [ship], [add] and [remove] on a dict [d] of the store. *)
Lemma Shipment_action_request (action : string) (self : Resource)
    (order_number number : scalar) (data : loc) (d : dict) (w : world) :
  cls self = Shipment order_number ->
  dicts w !! data = Some d ->
  exists r w',
    Shipment_action action self number data w = (r, w') /\
    sent w' = sent w ++
      [Request PUT (PStr (url self +:+ "/" +:+ format_s number +:+ action))
         (api_key (connection self))
         (Some (shipment_shape (delete "path" d))) None] /\
    dicts w' = <[data := shipment_shape (delete "path" d)]> (dicts w).
Proof.
  intros Hcls Hd.
  assert (Hlt : (data < length (dicts w))%nat) by (by eapply lookup_lt_Some).
  unfold Shipment_action, Shipment_update, load_payload. rewrite Hcls.
  unfold_py. rewrite Hd. simpl.
  rewrite list_lookup_insert_eq by done. rewrite lookup_insert_eq.
  unfold truthy. rewrite append_nonempty. simpl.
  rewrite !list_insert_insert_eq.
  rewrite list_lookup_insert_eq by done. simpl.
  rewrite !list_insert_insert_eq.
  rewrite list_lookup_insert_eq by done. simpl.
  rewrite !list_insert_insert_eq.
  rewrite list_lookup_insert_eq by done. simpl.
  rewrite delete_insert_eq. fold (shipment_shape (delete "path" d)).
  repeat (case_step; simpl); eexists _, _; split_and!; reflexivity.
Qed.

Lemma Shipment_update_request (self : Resource)
    (order_number number : scalar) (data : loc) (d : dict) (w : world) :
  cls self = Shipment order_number ->
  dicts w !! data = Some d ->
  d !! "path" = None ->
  exists r w',
    Shipment_update self number data w = (r, w') /\
    sent w' = sent w ++
      [Request PUT (PStr (url self +:+ "/" +:+ format_s number))
         (api_key (connection self)) (Some (shipment_shape d)) None].
Proof.
  intros Hcls Hd Hpath.
  assert (Hlt : (data < length (dicts w))%nat) by (by eapply lookup_lt_Some).
  unfold Shipment_update, load_payload. rewrite Hcls.
  unfold_py. rewrite Hd. simpl. rewrite Hpath. simpl. rewrite Hd. simpl.
  rewrite list_lookup_insert_eq by done. simpl.
  rewrite !list_insert_insert_eq.
  rewrite list_lookup_insert_eq by done. simpl.
  fold (shipment_shape d).
  repeat (case_step; simpl); eexists _, _; split_and!; reflexivity.
Qed.

Lemma shipment_shape_empty : shipment_shape (delete "path" ∅) = ∅.
Proof. by rewrite delete_empty. Qed.

(** C7.  [ready], [ship], [add] and [remove] each issue one PUT through
    [Shipment.update], to the shipment URL followed by the shipment number
    and the action; [update] itself targets the URL followed by the number
    when [data] has no ['path']; the shaped payload travels as query
    parameters and the body is absent.  [ship] without [data] sends empty
    query parameters and leaves its default dict empty. *)
Theorem shipment_actions_put_params (self : Resource)
    (order_number number : scalar) (data : loc) (d : dict) (w : world) :
  cls self = Shipment order_number ->
  dicts w !! data = Some d ->
  let put (suffix : string) (query : dict) :=
    Request PUT (PStr (url self +:+ "/" +:+ format_s number +:+ suffix))
      (api_key (connection self)) (Some query) None in
  let shaped := shipment_shape (delete "path" d) in
  url self = conn_url (connection self) +:+ "/orders/"
               +:+ format_s order_number +:+ "/shipments" /\
  (exists r w', Shipment_ready self number (Some data) w = (r, w') /\
                sent w' = sent w ++ [put "/ready" shaped]) /\
  (exists r w', Shipment_ship self number (Some data) w = (r, w') /\
                sent w' = sent w ++ [put "/ship" shaped]) /\
  (exists r w', Shipment_add self number data w = (r, w') /\
                sent w' = sent w ++ [put "/add" shaped]) /\
  (exists r w', Shipment_remove self number data w = (r, w') /\
                sent w' = sent w ++ [put "/remove" shaped]) /\
  (d !! "path" = None ->
   exists r w', Shipment_update self number data w = (r, w') /\
                sent w' = sent w ++
                  [Request PUT (PStr (url self +:+ "/" +:+ format_s number))
                     (api_key (connection self))
                     (Some (shipment_shape d)) None]) /\
  (dicts w !! ship_default = Some ∅ ->
   exists r w', Shipment_ship self number None w = (r, w') /\
                sent w' = sent w ++ [put "/ship" ∅] /\
                dicts w' !! ship_default = Some ∅).
Proof.
  intros Hcls Hd put shaped. subst put shaped.
  split_and!.
  - unfold url, path. by rewrite Hcls.
  - destruct (Shipment_action_request "/ready" self order_number number
                data d w Hcls Hd) as (r & w' & H1 & H2 & _).
    by exists r, w'.
  - destruct (Shipment_action_request "/ship" self order_number number
                data d w Hcls Hd) as (r & w' & H1 & H2 & _).
    by exists r, w'.
  - destruct (Shipment_action_request "/add" self order_number number
                data d w Hcls Hd) as (r & w' & H1 & H2 & _).
    by exists r, w'.
  - destruct (Shipment_action_request "/remove" self order_number number
                data d w Hcls Hd) as (r & w' & H1 & H2 & _).
    by exists r, w'.
  - intros Hpath.
    by apply (Shipment_update_request self order_number number data d w).
  - intros Hdef.
    destruct (Shipment_action_request "/ship" self order_number number
                ship_default ∅ w Hcls Hdef) as (r & w' & H1 & H2 & H3).
    rewrite shipment_shape_empty in H2, H3.
    exists r, w'. split_and!; [done|done|].
    rewrite H3. apply list_lookup_insert_eq. by eapply lookup_lt_Some.
Qed.

(** C1 (amended).  For every operation on every handle that gets an answer:
    status 404 raises [ResourceNotFound]; any other status from 400 to 599
    raises [HTTPError] with the response; any status outside 400..599
    raises neither, and the decoded body is returned by [get], [create],
    [update] and [delete], wrapped in a Pagination by [find], and unwrapped
    by [Variant.get] without a product id. *)
Theorem crud_response_validation (self : Resource) (c : call) (w : world)
    (rq : request) (resp : response) :
  sent (invoke self c w).2 = sent w ++ [rq] ->
  send (sent w) rq = inr resp ->
  let r := (invoke self c w).1 in
  (status_code resp = 404 ->
     r = inl (ResourceNotFound "Resource not found.")) /\
  (status_code resp ≠ 404 -> 400 <= status_code resp < 600 ->
     r = inl (HTTPError resp)) /\
  (¬ 400 <= status_code resp < 600 ->
     (forall msg, r ≠ inl (ResourceNotFound msg)) /\
     (forall x, r ≠ inl (HTTPError x)) /\
     forall v, json_body resp = Some v ->
       match c with
       | Find _ _ =>
           match getitem_str v (item_attribute self) with
           | inl e => r = inl e
           | inr its =>
               exists pg p,
                 r = inr (RPagination pg) /\
                 paginations (invoke self c w).2 !! pg = Some p /\
                 data p = v /\ items p = its
           end
       | Get _ =>
           match cls self with
           | Variant product_id =>
               if truthy (pyval_of_scalar product_id)
               then r = inr (RJson v)
               else match getitem_str v "variants" with
                    | inl e => r = inl e
                    | inr l => match unpack1 l with
                               | inl e => r = inl e
                               | inr x => r = inr (RJson x)
                               end
                    end
           | _ => r = inr (RJson v)
           end
       | Create _ | Update _ _ | Delete _ => r = inr (RJson v)
       end).
Proof.
  intros H Hsend r. subst r.
  destruct (invoke self c w) as [r w'] eqn:E. simpl in *.
  destruct self as [conn pp k].
  destruct c, k; unfold invoke, get, update in E; unfold_py; simpl in *.
  all: repeat (case_step_in E; simpl in * ).
  all: simplify_eq; simpl in *.
  all: try (exfalso; eapply snoc_neq; eassumption).
  all: apply snoc_inj in H; subst rq.
  all: try congruence.
  all: match goal with
       | Hs : send ?a ?b = inr ?x, Ht : send ?a ?b = inr ?y |- _ =>
           assert (x = y) by congruence; subst x; clear Hs
       end.
  all: bool_to_prop.
  all: split_and!; intros; try discriminate; try lia; try (f_equal; lia).
  all: simplify_eq; simpl in *.
  all: repeat match goal with
         | Hx : ?x = _ |- context [?x] => rewrite Hx
         end; simpl.
  all: try reflexivity.
  all: try match goal with
         | Hb : negb (truthy ?x) = _ |- _ =>
             destruct (truthy x); simpl in Hb; try discriminate
         end.
  all: split_and!; try discriminate.
  all: try (intros ? [= ->];
            match goal with
            | Hg : getitem_str _ _ = inl _ |- _ =>
                apply getitem_str_exn in Hg; destruct Hg; discriminate
            | Hg : unpack1 _ = inl _ |- _ =>
                apply unpack1_exn in Hg; destruct Hg; discriminate
            end).
  all: intros v Hv; simplify_eq; unfold item_attribute in *; simpl in *.
  all: repeat match goal with
         | Hx : ?x = _ |- context [?x] => rewrite Hx
         end; simpl.
  all: try reflexivity.
  all: eexists _, _; split_and!;
       [reflexivity | apply lookup_snoc | reflexivity | reflexivity].
Qed.

(** *** Every operation at once *)

Lemma invoke_cases (self : Resource) (c : call) (w : world) :
  let r := (invoke self c w).1 in
  let w' := (invoke self c w).2 in
  (exists ps, paginations w' = paginations w ++ ps) /\
  (forall l, dict_of c ≠ Some l -> (l < length (dicts w))%nat ->
     dicts w' !! l = dicts w !! l) /\
  ((sent w' = sent w /\ exists e, r = inl e) \/
   exists rq,
     sent w' = sent w ++ [rq] /\
     token rq = api_key (connection self) /\
     meth rq = method_of c /\
     match send (sent w) rq with
     | inl e => r = inl e
     | inr resp =>
         ¬ 400 <= status_code resp < 600 -> json_body resp = None ->
         r = inl ValueError
     end).
Proof.
  intros r w'. subst r w'.
  destruct (invoke self c w) as [r w'] eqn:E. simpl.
  destruct c; unfold invoke, get, update in E; unfold_py; simpl in *.
  all: repeat (case_step_in E; simpl in * ).
  all: simplify_eq; simpl in *.
  all: split;
    [first [by (exists []; rewrite app_nil_r) | by eexists [_]]|].
  all: split; [frame_dicts|].
  all: try (left; split; [reflexivity | by eexists]).
  all: right; eexists; split_and!; [reflexivity | done | done |].
  all: match goal with Hs : send _ _ = _ |- _ => rewrite Hs end; try done.
  all: intros Hst Hj; bool_to_prop; try lia; try congruence.
Qed.

(** X1.  An operation sends at most one request.  The request carries the
    connection's token and the operation's HTTP method; an operation that
    sends none has raised. *)
Theorem one_request_per_call (self : Resource) (c : call) (w : world) :
  (sent (invoke self c w).2 = sent w /\
   exists e, (invoke self c w).1 = inl e) \/
  exists rq,
    sent (invoke self c w).2 = sent w ++ [rq] /\
    token rq = api_key (connection self) /\
    meth rq = method_of c.
Proof.
  destruct (invoke_cases self c w) as (_ & _ & [Hnone|(rq & H1 & H2 & H3 & _)]).
  - by left.
  - right. by exists rq.
Qed.

(** X2.  What the session raises for the request of an operation is what
    the operation raises. *)
Theorem transport_failure_propagates (self : Resource) (c : call) (w : world)
    (rq : request) (e : exn) :
  sent (invoke self c w).2 = sent w ++ [rq] ->
  send (sent w) rq = inl e ->
  (invoke self c w).1 = inl e.
Proof.
  intros Hsent Hsend.
  destruct (invoke_cases self c w)
    as (_ & _ & [[Hnone _]|(rq' & H1 & _ & _ & H4)]).
  - rewrite Hnone in Hsent. by apply snoc_neq in Hsent.
  - rewrite H1 in Hsent. apply snoc_inj in Hsent as ->.
    by rewrite Hsend in H4.
Qed.

(** X3.  An answer that passes validation but whose body does not decode
    makes the operation raise [ValueError]. *)
Theorem undecodable_body_raises (self : Resource) (c : call) (w : world)
    (rq : request) (resp : response) :
  sent (invoke self c w).2 = sent w ++ [rq] ->
  send (sent w) rq = inr resp ->
  ¬ 400 <= status_code resp < 600 ->
  json_body resp = None ->
  (invoke self c w).1 = inl ValueError.
Proof.
  intros Hsent Hsend Hst Hj.
  destruct (invoke_cases self c w)
    as (_ & _ & [[Hnone _]|(rq' & H1 & _ & _ & H4)]).
  - rewrite Hnone in Hsent. by apply snoc_neq in Hsent.
  - rewrite H1 in Hsent. apply snoc_inj in Hsent as ->.
    rewrite Hsend in H4. by apply H4.
Qed.

(** X4.  An operation leaves every dict of the store as it was, the one it
    was handed apart, and every Pagination that existed before it. *)
Theorem operations_frame (self : Resource) (c : call) (w : world) :
  (forall l d, dict_of c ≠ Some l -> dicts w !! l = Some d ->
     dicts (invoke self c w).2 !! l = Some d) /\
  (forall i p, paginations w !! i = Some p ->
     paginations (invoke self c w).2 !! i = Some p).
Proof.
  destruct (invoke_cases self c w) as ((ps & Hps) & Hd & _). split.
  - intros l d Hne Hl. rewrite Hd; [done | done |]. by eapply lookup_lt_Some.
  - intros i p Hi. rewrite Hps. by apply lookup_app_l_Some.
Qed.

(** *** Identifiers *)

(** X5.  [update] and [delete] format the id with [%d]: a text or [None]
    makes them raise [TypeError] before anything is sent or changed, on
    every handle but a Shipment, whose [update] takes any id.  [get]
    formats with [%s] and takes the same id. *)
Theorem update_delete_need_a_number (self : Resource) (id : scalar)
    (data : loc) (w : world) :
  (id = SNone \/ exists s, id = SStr s) ->
  Resource_delete self id w = (inl TypeError, w) /\
  ((forall o, cls self ≠ Shipment o) ->
   update self id data w = (inl TypeError, w)) /\
  ((forall p, cls self ≠ Variant p) ->
   exists r w',
     get self id w = (r, w') /\
     sent w' = sent w ++
       [Request GET (PStr (url self +:+ "/" +:+ format_s id))
          (api_key (connection self)) None None]).
Proof.
  intros Hid.
  assert (format_d id = inl TypeError) as Hfmt by (by destruct Hid as [->|[s ->]]).
  clear Hid. rename Hfmt into Hid. split_and!.
  - unfold Resource_delete, bind, lift. by rewrite Hid.
  - intros Hcls. unfold update.
    destruct (cls self) eqn:E; try (by destruct (Hcls order_number));
      unfold Resource_update, bind, lift; by rewrite Hid.
  - intros Hcls. unfold get.
    destruct (cls self) eqn:E; try (by destruct (Hcls product_id));
      unfold_py; simpl;
      repeat (case_step; simpl); eexists _, _; split; reflexivity.
Qed.

(** *** Payloads *)


(** X7.  The payload of a StockItem: [count_on_hand] and [force] move to
    [stock_item[...]] keys when the input has them, everything else is
    dropped, and no field is required. *)
Theorem stock_item_payload (self : Resource) (location_id : Z) (data : loc)
    (d : dict) (w : world) :
  cls self = StockItem location_id ->
  dicts w !! data = Some d ->
  exists r w' payload,
    Resource_create self data w = (r, w') /\
    sent w' = sent w ++
      [Request POST (PStr (url self)) (api_key (connection self))
         None (Some payload)] /\
    payload !! "stock_item[count_on_hand]" = d !! "count_on_hand" /\
    payload !! "stock_item[force]" = d !! "force" /\
    (forall key, is_Some (payload !! key) ->
       key = "stock_item[count_on_hand]" \/ key = "stock_item[force]").
Proof.
  intros Hcls Hd.
  unfold Resource_create, load_payload. rewrite Hcls.
  unfold StockItem_load_payload. unfold_py. rewrite Hd. simpl.
  rewrite lookup_snoc. simpl.
  match goal with
  | |- context [Some ?pl] =>
      lazymatch pl with copy_field _ _ _ _ => set (payload := pl) end
  end.
  assert (H1 : payload !! "stock_item[count_on_hand]" = d !! "count_on_hand").
  { subst payload. rewrite !lookup_copy_field, lookup_empty. eval_eqb.
    by destruct (d !! "count_on_hand"). }
  assert (H2 : payload !! "stock_item[force]" = d !! "force").
  { subst payload. rewrite !lookup_copy_field, lookup_empty. eval_eqb.
    by destruct (d !! "force"). }
  assert (H3 : forall key, is_Some (payload !! key) ->
            key = "stock_item[count_on_hand]" \/ key = "stock_item[force]").
  { intros key. subst payload. rewrite !lookup_copy_field, lookup_empty.
    destruct (String.eqb_spec "stock_item[force]" key) as [<-|_];
      [by right|].
    destruct (String.eqb_spec "stock_item[count_on_hand]" key) as [<-|_];
      [by left|].
    by intros [? ?]. }
  repeat (case_step; simpl); eexists _, _, _; split_and!; done.
Qed.

(** X8.  On a handle that is no Shipment, [update] shapes the payload as
    [create] does and sends it the same way, as the body: what [create]
    posts to the URL, [update] puts to the URL followed by the id. *)
Theorem update_sends_create_payload (self : Resource) (id : Z) (data : loc)
    (w : world) :
  (forall o, cls self ≠ Shipment o) ->
  (sent (Resource_create self data w).2 = sent w /\
   sent (update self (SInt id) data w).2 = sent w) \/
  exists payload,
    sent (Resource_create self data w).2 = sent w ++
      [Request POST (PStr (url self)) (api_key (connection self))
         None (Some payload)] /\
    sent (update self (SInt id) data w).2 = sent w ++
      [Request PUT (PStr (url self +:+ "/" +:+ str_of_Z id))
         (api_key (connection self)) None (Some payload)].
Proof.
  intros Hcls. unfold update.
  destruct (cls self) eqn:E; try (by destruct (Hcls order_number));
    unfold_py; rewrite E; simpl;
    repeat (case_step; simpl);
    first [by left | right; eexists; split; reflexivity].
Qed.

(** X9.  A Product payload needs [name]: without it [create] and [update]
    raise [KeyError] and nothing is sent or changed. *)
Theorem product_needs_name (self : Resource) (id : Z) (data : loc) (d : dict)
    (w : world) :
  cls self = Product ->
  dicts w !! data = Some d ->
  d !! "name" = None ->
  Resource_create self data w = (inl (KeyError (PStr "name")), w) /\
  update self (SInt id) data w = (inl (KeyError (PStr "name")), w).
Proof.
  intros Hcls Hd Hname. unfold update, Resource_update, Resource_create,
    load_payload. rewrite Hcls.
  unfold Product_load_payload, getitem_str. unfold_py.
  rewrite Hd. simpl. by rewrite Hname.
Qed.

(** *** Shipments *)

Lemma lookup_move_key (old new : string) (d : dict) (k : string) :
  old ≠ new ->
  move_key old new d !! k =
    match d !! old with
    | Some v => if String.eqb new k then Some v
                else if String.eqb old k then None else d !! k
    | None => d !! k
    end.
Proof.
  intros Hne. unfold move_key. destruct (d !! old) as [v|] eqn:E; [|done].
  destruct (String.eqb_spec new k) as [->|Hnk].
  - by rewrite lookup_insert_eq.
  - rewrite lookup_insert_ne by done.
    destruct (String.eqb_spec old k) as [->|Hok].
    + by rewrite lookup_delete_eq.
    + by rewrite lookup_delete_ne.
Qed.

Lemma shipment_shape_lookup (d : dict) (k : string) :
  shipment_shape d !! k =
    if String.eqb "shipment[number]" k then
      match d !! "number" with
      | Some v => Some v
      | None => d !! "shipment[number]"
      end
    else if String.eqb "shipment[tracking]" k then
      match d !! "tracking" with
      | Some v => Some v
      | None => d !! "shipment[tracking]"
      end
    else if String.eqb "number" k then None
    else if String.eqb "tracking" k then None
    else d !! k.
Proof.
  unfold shipment_shape.
  rewrite !lookup_move_key by done.
  change (String.eqb "shipment[tracking]" "number") with false.
  change (String.eqb "tracking" "number") with false.
  cbv beta iota.
  destruct (String.eqb_spec "shipment[number]" k) as [<-|H1].
  { change (String.eqb "shipment[tracking]" "shipment[number]") with false.
    change (String.eqb "tracking" "shipment[number]") with false.
    cbv beta iota.
    by destruct (d !! "tracking"), (d !! "number"). }
  destruct (String.eqb_spec "shipment[tracking]" k) as [<-|H2].
  { by destruct (d !! "tracking"), (d !! "number"). }
  destruct (String.eqb_spec "number" k) as [<-|H3].
  { change (String.eqb "tracking" "number") with false. cbv beta iota.
    by destruct (d !! "tracking"), (d !! "number"). }
  destruct (String.eqb_spec "tracking" k) as [<-|H4].
  { by destruct (d !! "tracking"), (d !! "number"). }
  by destruct (d !! "tracking"), (d !! "number").
Qed.

Lemma shipment_shape_idemp (d : dict) :
  shipment_shape (shipment_shape d) = shipment_shape d.
Proof.
  apply map_eq. intros k. rewrite (shipment_shape_lookup (shipment_shape d)).
  rewrite !(shipment_shape_lookup d).
  change (String.eqb "shipment[number]" "number") with false.
  change (String.eqb "shipment[tracking]" "number") with false.
  change (String.eqb "number" "number") with true.
  change (String.eqb "shipment[number]" "tracking") with false.
  change (String.eqb "shipment[tracking]" "tracking") with false.
  change (String.eqb "number" "tracking") with false.
  change (String.eqb "tracking" "tracking") with true.
  cbv beta iota.
  destruct (String.eqb "shipment[number]" k); [done|].
  destruct (String.eqb "shipment[tracking]" k); [done|].
  destruct (String.eqb "number" k); [done|].
  by destruct (String.eqb "tracking" k).
Qed.

Lemma Shipment_load_payload_run (data : loc) (d : dict) (w : world) :
  dicts w !! data = Some d ->
  Shipment_load_payload data w =
    (inr data,
     World (<[data := shipment_shape d]> (dicts w)) (paginations w) (sent w)).
Proof.
  intros Hd.
  assert (Hlt : (data < length (dicts w))%nat) by (by eapply lookup_lt_Some).
  unfold Shipment_load_payload. unfold_py. rewrite Hd. simpl.
  rewrite list_lookup_insert_eq by done. simpl.
  by rewrite list_insert_insert_eq.
Qed.

(** X10.  [Shipment.load_payload] works on the caller's dict itself:
    [tracking] and [number] leave it and their values land under
    [shipment[tracking]] and [shipment[number]], replacing what was there;
    no other key changes, and a second pass changes nothing. *)
Theorem shipment_load_payload_in_place (data : loc) (d : dict) (w : world) :
  dicts w !! data = Some d ->
  exists d' w',
    Shipment_load_payload data w = (inr data, w') /\
    dicts w' = <[data := d']> (dicts w) /\
    paginations w' = paginations w /\ sent w' = sent w /\
    d' !! "tracking" = None /\
    d' !! "number" = None /\
    d' !! "shipment[tracking]" =
      match d !! "tracking" with
      | Some v => Some v
      | None => d !! "shipment[tracking]"
      end /\
    d' !! "shipment[number]" =
      match d !! "number" with
      | Some v => Some v
      | None => d !! "shipment[number]"
      end /\
    (forall k, k ≠ "tracking" -> k ≠ "number" ->
               k ≠ "shipment[tracking]" -> k ≠ "shipment[number]" ->
               d' !! k = d !! k) /\
    Shipment_load_payload data w' = (inr data, w').
Proof.
  intros Hd.
  assert (Hlt : (data < length (dicts w))%nat) by (by eapply lookup_lt_Some).
  eexists _, _. split; [by apply Shipment_load_payload_run|]. simpl.
  split_and!; try done; try (by rewrite shipment_shape_lookup).
  - intros k H1 H2 H3 H4. rewrite shipment_shape_lookup.
    repeat match goal with
      | |- context [String.eqb ?a k] =>
          destruct (String.eqb_spec a k) as [<-|?]; [done|]
      end.
    done.
  - rewrite (Shipment_load_payload_run data (shipment_shape d))
      by (by apply list_lookup_insert_eq).
    simpl. by rewrite list_insert_insert_eq, shipment_shape_idemp.
Qed.

(** X11.  [create] on a Shipment is the inherited one: a POST to the
    shipment URL with the shaped dict as body and no query parameters, the
    caller's dict being shaped in place. *)
Theorem shipment_create_posts_body (self : Resource) (order_number : scalar)
    (data : loc) (d : dict) (w : world) :
  cls self = Shipment order_number ->
  dicts w !! data = Some d ->
  exists r w',
    Resource_create self data w = (r, w') /\
    sent w' = sent w ++
      [Request POST (PStr (url self)) (api_key (connection self))
         None (Some (shipment_shape d))] /\
    dicts w' = <[data := shipment_shape d]> (dicts w).
Proof.
  intros Hcls Hd.
  assert (Hlt : (data < length (dicts w))%nat) by (by eapply lookup_lt_Some).
  unfold Resource_create, load_payload. rewrite Hcls.
  unfold bind at 1. rewrite (Shipment_load_payload_run data d w Hd).
  unfold_py. simpl. rewrite list_lookup_insert_eq by done. simpl.
  repeat (case_step; simpl); eexists _, _; split_and!; reflexivity.
Qed.

(** X12.  [ready], [ship], [add] and [remove] leave their mark on the dict
    the caller passed, whatever the answer: a ['path'] entry of the caller
    is gone and [tracking] and [number] are renamed. *)
Theorem shipment_helpers_change_caller_dict (self : Resource)
    (order_number number : scalar) (data : loc) (d : dict) (w : world) :
  cls self = Shipment order_number ->
  dicts w !! data = Some d ->
  let d' := shipment_shape (delete "path" d) in
  d' !! "path" = None /\
  dicts (Shipment_ready self number (Some data) w).2 !! data = Some d' /\
  dicts (Shipment_ship self number (Some data) w).2 !! data = Some d' /\
  dicts (Shipment_add self number data w).2 !! data = Some d' /\
  dicts (Shipment_remove self number data w).2 !! data = Some d'.
Proof.
  intros Hcls Hd d'.
  assert (Hlt : (data < length (dicts w))%nat) by (by eapply lookup_lt_Some).
  split.
  { subst d'. rewrite shipment_shape_lookup. eval_eqb. apply lookup_delete_eq. }
  unfold Shipment_ready, Shipment_ship, Shipment_add, Shipment_remove. simpl.
  split_and!;
    match goal with
    | |- context [Shipment_action ?a _ _ _ _] =>
        destruct (Shipment_action_request a self order_number number data d w
                    Hcls Hd) as (r & w' & Hrun & _ & Hdw)
    end; rewrite Hrun; simpl; rewrite Hdw; by apply list_lookup_insert_eq.
Qed.

(** X13.  A ['path'] entry in the data of [Shipment.update]: a true value
    becomes the target of the PUT, whatever it is, and leaves the payload;
    a false one (an empty text, [None], zero) is not used as target and
    stays in the query parameters. *)
Theorem shipment_update_path_entry (self : Resource)
    (order_number number : scalar) (data : loc) (d : dict) (v : pyval)
    (w : world) :
  cls self = Shipment order_number ->
  dicts w !! data = Some d ->
  d !! "path" = Some v ->
  exists r w',
    Shipment_update self number data w = (r, w') /\
    if truthy v
    then sent w' = sent w ++
           [Request PUT v (api_key (connection self))
              (Some (shipment_shape (delete "path" d))) None] /\
         shipment_shape (delete "path" d) !! "path" = None
    else sent w' = sent w ++
           [Request PUT (PStr (url self +:+ "/" +:+ format_s number))
              (api_key (connection self)) (Some (shipment_shape d)) None] /\
         shipment_shape d !! "path" = Some v.
Proof.
  intros Hcls Hd Hpath.
  assert (Hlt : (data < length (dicts w))%nat) by (by eapply lookup_lt_Some).
  unfold Shipment_update, load_payload. rewrite Hcls.
  unfold_py. rewrite Hd. simpl. rewrite Hpath.
  destruct (truthy v) eqn:Hv; simpl.
  - rewrite list_lookup_insert_eq by done. simpl.
    rewrite !list_insert_insert_eq.
    rewrite list_lookup_insert_eq by done. simpl.
    rewrite !list_insert_insert_eq.
    rewrite list_lookup_insert_eq by done. simpl.
    fold (shipment_shape (delete "path" d)).
    assert (shipment_shape (delete "path" d) !! "path" = None).
    { rewrite shipment_shape_lookup. eval_eqb. apply lookup_delete_eq. }
    repeat (case_step; simpl); eexists _, _; split_and!; done.
  - rewrite Hd. simpl.
    rewrite list_lookup_insert_eq by done. simpl.
    rewrite !list_insert_insert_eq.
    rewrite list_lookup_insert_eq by done. simpl.
    fold (shipment_shape d).
    assert (shipment_shape d !! "path" = Some v).
    { rewrite shipment_shape_lookup. eval_eqb. done. }
    repeat (case_step; simpl); eexists _, _; split_and!; done.
Qed.

(** *** Finding and paging *)

Lemma Resource_find_empty_filters (self : Resource) (page : Z) (l : loc)
    (w : world) :
  dicts w !! l = Some ∅ ->
  exists r w',
    Resource_find self page (Some l) w = (r, w') /\
    sent w' = sent w ++
      [Request GET (PStr (url self)) (api_key (connection self))
         (Some (<["per_page" := PInt (per_page self)]>
                  (<["page" := PInt page]> ∅))) None] /\
    dicts w' !! l = Some ∅ /\
    forall pg, r = inr pg ->
      exists p, paginations w' !! pg = Some p /\
                filters p = Some l /\ resource p = self.
Proof.
  intros Hl.
  assert (Hlt : (l < length (dicts w))%nat) by (by eapply lookup_lt_Some).
  unfold_py. rewrite Hl. simpl.
  rewrite bool_decide_true by done. simpl.
  rewrite lookup_snoc. simpl. rewrite insert_snoc, lookup_snoc. simpl.
  repeat (case_step; simpl); eexists _, _; split_and!; try reflexivity;
    try (by simpl; rewrite lookup_app_l by done).
  all: intros pg [= <-].
  eexists. split_and!; [apply lookup_snoc | done | done].
Qed.

(** X14.  The query of [find] is the caller's filters with ['page'] and
    ['per_page'] written over them.  A non-empty filters dict is changed in
    place; an empty one is left empty, and the Pagination keeps it all the
    same: [find] returns one whenever the answer passes validation and its
    body holds the item key, and it stores the caller's dict. *)
Theorem find_query (self : Resource) (page : Z) (l : loc) (d : dict)
    (w : world) :
  dicts w !! l = Some d ->
  let query :=
    <["per_page" := PInt (per_page self)]> (<["page" := PInt page]> d) in
  exists r w',
    Resource_find self page (Some l) w = (r, w') /\
    sent w' = sent w ++
      [Request GET (PStr (url self)) (api_key (connection self))
         (Some query) None] /\
    (forall k, k ≠ "page" -> k ≠ "per_page" -> query !! k = d !! k) /\
    dicts w' !! l = Some (if decide (d = ∅) then ∅ else query) /\
    (forall pg, r = inr pg ->
       exists p, paginations w' !! pg = Some p /\ filters p = Some l) /\
    (forall (resp : response) (m : dict) (its : pyval),
       send (sent w)
         (Request GET (PStr (url self)) (api_key (connection self))
            (Some query) None) = inr resp ->
       ¬ 400 <= status_code resp < 600 ->
       json_body resp = Some (PDict m) ->
       m !! item_attribute self = Some its ->
       exists pg p,
         r = inr pg /\
         paginations w' !! pg = Some p /\
         filters p = Some l /\
         data p = PDict m /\ items p = its).
Proof.
  intros Hl query.
  assert (Hlt : (l < length (dicts w))%nat) by (by eapply lookup_lt_Some).
  assert (Hq : forall k, k ≠ "page" -> k ≠ "per_page" -> query !! k = d !! k).
  { intros k H1 H2. subst query. by rewrite !lookup_insert_ne. }
  destruct (decide (d = ∅)) as [->|Hne].
  - destruct (Resource_find_empty_filters self page l w Hl)
      as (r & w' & Hrun & Hsent & Hd & Hpg).
    exists r, w'. split_and!; try done.
    + intros pg Hr. destruct (Hpg pg Hr) as (p & Hp & Hf & _). by exists p.
    + intros resp m its Hsend Hst Hbody Hits.
      destruct (Resource_find_returns self page (Some l) w r w' _ resp m its
                  Hrun Hsent Hsend Hst Hbody Hits) as [Hr Hp].
      eexists _, _. split_and!; [exact Hr | exact Hp | done | done | done].
  - destruct (Resource_find_with_filters self page l d w Hl Hne)
      as (r & w' & Hrun & Hsent & Hd & Hpg).
    exists r, w'. split_and!; try done.
    + rewrite Hd. by apply list_lookup_insert_eq.
    + intros pg Hr. destruct (Hpg pg Hr) as (p & Hp & Hf & _). by exists p.
    + intros resp m its Hsend Hst Hbody Hits.
      destruct (Resource_find_returns self page (Some l) w r w' _ resp m its
                  Hrun Hsent Hsend Hst Hbody Hits) as [Hr Hp].
      eexists _, _. split_and!; [exact Hr | exact Hp | done | done | done].
Qed.

(** X15.  Looping over what [find] returns: when the answer passes
    validation and its body holds a count and at least as many items under
    the handle's item key, the loop yields the first [count] of them and no
    further request is made. *)
Theorem find_then_iterate (self : Resource) (page : Z) (filters : option loc)
    (w : world) (rq : request) (resp : response) (m : dict) (v : pyval)
    (count : Z) (l : list pyval) :
  sent (Resource_find self page filters w).2 = sent w ++ [rq] ->
  send (sent w) rq = inr resp ->
  ¬ 400 <= status_code resp < 600 ->
  json_body resp = Some (PDict m) ->
  m !! item_attribute self = Some (PList l) ->
  m !! "count" = Some v -> py_int v = inr count ->
  count <= Z.of_nat (length l) ->
  exists pg w1 w2,
    Resource_find self page filters w = (inr pg, w1) /\
    (forall fuel, (Z.to_nat count < fuel)%nat ->
       for_loop fuel pg w1 = ((take (Z.to_nat count) l, Exhausted), w2)) /\
    sent w2 = sent w ++ [rq].
Proof.
  intros Hsent Hsend Hst Hbody Hitems Hc Hv Hlen.
  pose proof (Resource_find_answer self page filters w rq resp (PDict m)
                Hsent Hsend Hst Hbody) as Hans.
  simpl in Hans. rewrite Hitems in Hans. destruct Hans as [Hr Hps].
  destruct (Resource_find self page filters w) as [r w1] eqn:E.
  simpl in *. subst r.
  set (p := mkPagination (PDict m) (PList l) (-1) self filters) in *.
  assert (Hp : paginations w1 !! length (paginations w) = Some p).
  { rewrite Hps. apply lookup_snoc. }
  eexists _, w1, _. split_and!; [reflexivity| |].
  - intros fuel Hf. unfold for_loop, Pagination_iter, ret.
    by rewrite (pull_within _ m v count l fuel Hc Hv Hlen 0%nat w1 p)
      by (done || lia).
  - done.
Qed.

(** *** Iterating and indexing *)

Lemma Pagination_next_frame (self : loc) (w : world) :
  dicts (Pagination_next self w).2 = dicts w /\
  sent (Pagination_next self w).2 = sent w /\
  (forall i, i ≠ self ->
     paginations (Pagination_next self w).2 !! i = paginations w !! i) /\
  (forall p, paginations w !! self = Some p ->
     exists p',
       paginations (Pagination_next self w).2 !! self = Some p' /\
       data p' = data p /\ items p' = items p /\
       resource p' = resource p /\ filters p' = filters p /\
       current_index p <= current_index p' <= current_index p + 1).
Proof.
  unfold Pagination_next, Pagination_count, read_pagination, write_pagination,
    bind, lift, raise.
  destruct (paginations w !! self) as [p|] eqn:Hp;
    repeat (rewrite ?Hp; simpl).
  2: { split_and!; try done. }
  destruct (getitem_str (data p) "count") as [e|v] eqn:Hc;
    repeat (rewrite ?Hp, ?Hc; simpl).
  { split_and!; try done. intros ? [= <-]. exists p. split_and!; try done; lia. }
  destruct (py_int v) as [e|count] eqn:Hv;
    repeat (rewrite ?Hp, ?Hc, ?Hv; simpl).
  { split_and!; try done. intros ? [= <-]. exists p. split_and!; try done; lia. }
  destruct (current_index p <? count - 1); simpl.
  - rewrite list_lookup_insert_eq by (by eapply lookup_lt_Some). simpl.
    split_and!; try done.
    + intros i Hi. by rewrite list_lookup_insert_ne.
    + intros ? [= <-]. eexists. split.
      { apply list_lookup_insert_eq. by eapply lookup_lt_Some. }
      simpl. split_and!; try done; lia.
  - split_and!; try done. intros ? [= <-]. exists p. split_and!; try done; lia.
Qed.

(** X16.  A call of [next] sends nothing, changes no dict and no other
    Pagination, and of its own Pagination only the position, which it
    leaves or moves one step forward. *)
Theorem next_moves_only_its_position (self : loc) (w : world) :
  dicts (Pagination_next self w).2 = dicts w /\
  sent (Pagination_next self w).2 = sent w /\
  (forall i, i ≠ self ->
     paginations (Pagination_next self w).2 !! i = paginations w !! i) /\
  (forall p, paginations w !! self = Some p ->
     exists p',
       paginations (Pagination_next self w).2 !! self = Some p' /\
       data p' = data p /\ items p' = items p /\
       resource p' = resource p /\ filters p' = filters p /\
       current_index p <= current_index p' <= current_index p + 1).
Proof. apply Pagination_next_frame. Qed.

Lemma next_calls_exhausted (it : loc) (m : dict) (v : pyval) (count : Z)
    (l : list pyval) (n : nat) :
  m !! "count" = Some v -> py_int v = inr count ->
  forall (i : nat) (w : world) (p : Pagination),
    paginations w !! it = Some p ->
    data p = PDict m -> items p = PList l ->
    current_index p = Z.of_nat i - 1 ->
    count <= Z.of_nat i ->
    next_calls n it w = (replicate n (inl StopIteration), w).
Proof.
  intros Hc Hv. induction n as [|n IH]; intros i w p Hp Hd Hl Hi Hge; [done|].
  simpl. rewrite (Pagination_next_step it w p m v count l i) by done.
  destruct (Z.ltb_spec (Z.of_nat i) count); [lia|].
  by rewrite (IH i w p).
Qed.

Lemma nth_outcome_stop (count : Z) (l : list pyval) (n : nat) :
  forall i : nat, count <= Z.of_nat i ->
    nth_outcome count l <$> seq i n = replicate n (inl StopIteration).
Proof.
  induction n as [|n IH]; intros i Hge; [done|].
  simpl. rewrite IH by lia. unfold nth_outcome.
  by replace (Z.of_nat i <? count) with false
    by (symmetry; apply Z.ltb_ge; lia).
Qed.

Lemma next_calls_from (it : loc) (m : dict) (v : pyval) (count : Z)
    (l : list pyval) (n : nat) :
  m !! "count" = Some v -> py_int v = inr count ->
  forall (i : nat) (w : world) (p : Pagination),
    paginations w !! it = Some p ->
    data p = PDict m -> items p = PList l ->
    current_index p = Z.of_nat i - 1 ->
    (next_calls n it w).1 = nth_outcome count l <$> seq i n.
Proof.
  intros Hc Hv. induction n as [|n IH]; intros i w p Hp Hd Hl Hi; [done|].
  destruct (Z.ltb_spec (Z.of_nat i) count) as [Hlt|Hge].
  - simpl. rewrite (Pagination_next_step it w p m v count l i) by done.
    unfold nth_outcome at 1.
    destruct (Z.ltb_spec (Z.of_nat i) count); [|lia].
    set (p1 := mkPagination (data p) (items p) (Z.of_nat i) (resource p)
                 (filters p)).
    set (w1 := World (dicts w) (<[it := p1]> (paginations w)) (sent w)).
    assert (Hp1 : paginations w1 !! it = Some p1).
    { apply list_lookup_insert_eq. by eapply lookup_lt_Some. }
    specialize (IH (S i) w1 p1 Hp1 Hd Hl).
    destruct (next_calls n it w1) as [rs w2]. simpl in *.
    rewrite IH by lia. done.
  - rewrite (next_calls_exhausted it m v count l (S n) Hc Hv i w p) by done.
    by rewrite nth_outcome_stop.
Qed.

(** X17.  The calls of [next] on a new Pagination, one after the other:
    the items of the list while the position is below the count, an
    [IndexError] for each position the list does not reach, and
    [StopIteration] for ever once the count is reached.  A call that
    raises [IndexError] still moves the position. *)
Theorem next_call_by_call (self : loc) (w : world) (p : Pagination)
    (m : dict) (v : pyval) (count : Z) (l : list pyval) (n : nat) :
  paginations w !! self = Some p ->
  data p = PDict m -> m !! "count" = Some v -> py_int v = inr count ->
  items p = PList l ->
  current_index p = -1 ->
  (next_calls n self w).1 = nth_outcome count l <$> seq 0 n.
Proof.
  intros Hp Hd Hc Hv Hl Hi.
  by apply (next_calls_from self m v count l n Hc Hv 0%nat w p).
Qed.

Lemma next_calls_frame (self : loc) (n : nat) :
  forall (w : world) (p : Pagination),
    paginations w !! self = Some p ->
    dicts (next_calls n self w).2 = dicts w /\
    sent (next_calls n self w).2 = sent w /\
    exists p',
      paginations (next_calls n self w).2 !! self = Some p' /\
      items p' = items p /\ data p' = data p.
Proof.
  induction n as [|n IH]; intros w p Hp; simpl.
  { split_and!; try done. by exists p. }
  destruct (Pagination_next_frame self w) as (Hd & Hs & _ & Hself).
  destruct (Hself p Hp) as (p1 & Hp1 & Hdata & Hitems & _).
  destruct (Pagination_next self w) as [r w1]. simpl in *.
  destruct (IH w1 p1 Hp1) as (Hd2 & Hs2 & p2 & Hp2 & Hi2 & Hda2).
  destruct (next_calls n self w1) as [rs w2]. simpl in *.
  split_and!; [congruence | congruence |].
  exists p2. split_and!; [done | congruence | congruence].
Qed.

(** X18.  Indexing a Pagination reads its items and nothing else: it
    leaves the store as it is, and gives the same before and after any
    number of calls of [next]. *)
Theorem indexing_ignores_iteration (self : loc) (w : world) (p : Pagination)
    (n : nat) (index : Z) :
  paginations w !! self = Some p ->
  Pagination_getitem self index w = (getitem_int (items p) index, w) /\
  Pagination_getitem self index (next_calls n self w).2
    = (getitem_int (items p) index, (next_calls n self w).2).
Proof.
  intros Hp. unfold Pagination_getitem, read_pagination, bind, lift.
  rewrite Hp. split; [done|].
  destruct (next_calls_frame self n w p Hp) as (_ & _ & p' & Hp' & Hi & _).
  by rewrite Hp', Hi.
Qed.

(** X19.  A payload without ['count'] stops the iteration with [KeyError]
    at the first call; without ['pages'], or with ['pages'] but without
    ['current_page'], [has_next] and [next_page] raise [KeyError] and no
    request is made. *)
Theorem pagination_missing_fields (self : loc) (w : world) (p : Pagination)
    (m : dict) :
  paginations w !! self = Some p ->
  data p = PDict m ->
  (m !! "count" = None ->
   forall fuel, (0 < fuel)%nat ->
     for_loop fuel self w = (([], Raised (KeyError (PStr "count"))), w)) /\
  (m !! "pages" = None ->
   Pagination_has_next self w = (inl (KeyError (PStr "pages")), w) /\
   Pagination_next_page self w = (inl (KeyError (PStr "pages")), w)) /\
  (forall pages, m !! "pages" = Some (PInt pages) ->
   m !! "current_page" = None ->
   Pagination_has_next self w = (inl (KeyError (PStr "current_page")), w) /\
   Pagination_next_page self w = (inl (KeyError (PStr "current_page")), w)).
Proof.
  intros Hp Hd. split_and!.
  - intros Hc [|fuel] Hf; [lia|].
    unfold for_loop, Pagination_iter, ret. simpl.
    unfold Pagination_next, Pagination_count, read_pagination, bind, lift.
    by repeat (rewrite ?Hp, ?Hd, ?Hc; simpl).
  - intros Hpages.
    assert (Pagination_has_next self w = (inl (KeyError (PStr "pages")), w))
      as Hn.
    { unfold Pagination_has_next, Pagination_pages, read_pagination, bind, lift.
      by repeat (rewrite ?Hp, ?Hd, ?Hpages; simpl). }
    split; [done|]. unfold Pagination_next_page, bind. by rewrite Hn.
  - intros pages Hpages Hcur.
    assert (Pagination_has_next self w
            = (inl (KeyError (PStr "current_page")), w)) as Hn.
    { unfold Pagination_has_next, Pagination_pages, Pagination_page,
        read_pagination, bind, lift.
      by repeat (rewrite ?Hp, ?Hd, ?Hpages, ?Hcur; simpl). }
    split; [done|]. unfold Pagination_next_page, bind. by rewrite Hn.
Qed.

(** X20.  Indexing follows Python's list rules: position [k] and position
    [k - len] both give the [k]-th item, anything from [len] on or below
    [-len] raises [IndexError]. *)
Theorem indexing_bounds (self : loc) (w : world) (p : Pagination)
    (l : list pyval) :
  paginations w !! self = Some p ->
  items p = PList l ->
  (forall (k : nat) (x : pyval), l !! k = Some x ->
     Pagination_getitem self (Z.of_nat k) w = (inr x, w) /\
     Pagination_getitem self (Z.of_nat k - Z.of_nat (length l)) w
       = (inr x, w)) /\
  (forall i : Z, Z.of_nat (length l) <= i \/ i < - Z.of_nat (length l) ->
     Pagination_getitem self i w = (inl IndexError, w)).
Proof.
  intros Hp Hl. unfold Pagination_getitem, read_pagination, bind, lift.
  rewrite Hp, Hl. unfold getitem_int. split.
  - intros k x Hk. apply lookup_lt_Some in Hk as Hlt. split.
    + destruct (Z.ltb_spec (Z.of_nat k) 0); [lia|].
      destruct (Z.leb_spec 0 (Z.of_nat k)); [|lia].
      destruct (Z.ltb_spec (Z.of_nat k) (Z.of_nat (length l))); [|lia].
      simpl. by rewrite Nat2Z.id, Hk.
    + destruct (Z.ltb_spec (Z.of_nat k - Z.of_nat (length l)) 0); [|lia].
      replace (Z.of_nat k - Z.of_nat (length l) + Z.of_nat (length l))
        with (Z.of_nat k) by lia.
      destruct (Z.leb_spec 0 (Z.of_nat k)); [|lia].
      destruct (Z.ltb_spec (Z.of_nat k) (Z.of_nat (length l))); [|lia].
      simpl. by rewrite Nat2Z.id, Hk.
  - intros i Hi. destruct (Z.ltb_spec i 0).
    + destruct (Z.leb_spec 0 (i + Z.of_nat (length l))); [lia|]. done.
    + destruct (Z.ltb_spec i (Z.of_nat (length l))); [lia|].
      by rewrite andb_false_r.
Qed.

(** *** Variants *)

(** X21.  [Variant.get] tests the product id for truth: [None], [0],
    [False] and the empty text all count as no product id and lead to the
    filtered GET on ['/variants']; any other product id leads to a plain
    GET on the handle's URL followed by the id. *)
Theorem variant_get_by_product_id (c : connection_t) (pp : Z)
    (product_id id : scalar) (w : world) :
  let self := mkResource c pp (Variant product_id) in
  ((product_id = SNone \/ product_id = SInt 0 \/ product_id = SBool false \/
    product_id = SStr EmptyString) ->
   sent (get self id w).2 = sent w ++
     [Request GET (PStr (conn_url c +:+ "/variants")) (api_key c)
        (Some {[ "q[id_eq]" := pyval_of_scalar id ]}) None]) /\
  (product_id ≠ SNone -> product_id ≠ SInt 0 -> product_id ≠ SBool false ->
   product_id ≠ SStr EmptyString ->
   sent (get self id w).2 = sent w ++
     [Request GET (PStr (url self +:+ "/" +:+ format_s id)) (api_key c)
        None None]).
Proof.
  intros self. subst self. unfold get. simpl. unfold Variant_get. split.
  - intros Hf.
    assert (truthy (pyval_of_scalar product_id) = false) as ->
      by (by destruct Hf as [-> | [-> | [-> | ->]]]).
    unfold_py. simpl. repeat (case_step; simpl); reflexivity.
  - intros H1 H2 H3 H4.
    assert (truthy (pyval_of_scalar product_id) = true) as ->.
    { destruct product_id as [|b|z|s]; simpl; try done.
      - by destruct b.
      - destruct (Z.eqb_spec z 0); [congruence|done].
      - by destruct s. }
    unfold_py. simpl. repeat (case_step; simpl); reflexivity.
Qed.

(** *** The default dicts *)

Lemma Shipment_action_frame (action : string) (self : Resource)
    (number : scalar) (data : loc) (w : world) (l : loc) :
  l ≠ data -> (l < length (dicts w))%nat ->
  dicts (Shipment_action action self number data w).2 !! l = dicts w !! l.
Proof.
  intros Hne Hlt.
  destruct (Shipment_action action self number data w) as [r w'] eqn:E.
  simpl. unfold_py. simpl in *.
  repeat (case_step_in E; simpl in * ).
  all: simplify_eq; simpl.
  all: frame_dicts.
Qed.

(** X22.  The default dicts of [ready] and [ship] stay empty: a helper
    called without data sends empty query parameters and leaves both
    empty, and so does a helper or any other operation that is handed a
    dict of the caller's. *)
Theorem default_dicts_stay_empty (self : Resource) (order_number number : scalar)
    (w : world) :
  cls self = Shipment order_number ->
  dicts w !! ready_default = Some ∅ ->
  dicts w !! ship_default = Some ∅ ->
  let kept (w' : world) :=
    dicts w' !! ready_default = Some ∅ /\ dicts w' !! ship_default = Some ∅ in
  (kept (Shipment_ready self number None w).2 /\
   params <$> drop (length (sent w)) (sent (Shipment_ready self number None w).2)
     = [Some ∅]) /\
  (kept (Shipment_ship self number None w).2 /\
   params <$> drop (length (sent w)) (sent (Shipment_ship self number None w).2)
     = [Some ∅]) /\
  (forall data, data ≠ ready_default -> data ≠ ship_default ->
     kept (Shipment_ready self number (Some data) w).2 /\
     kept (Shipment_ship self number (Some data) w).2 /\
     kept (Shipment_add self number data w).2 /\
     kept (Shipment_remove self number data w).2) /\
  (forall (handle : Resource) (c : call),
     dict_of c ≠ Some ready_default -> dict_of c ≠ Some ship_default ->
     kept (invoke handle c w).2).
Proof.
  intros Hcls Hr Hs kept. subst kept. simpl.
  assert (Hlr : (ready_default < length (dicts w))%nat)
    by (by eapply lookup_lt_Some).
  assert (Hls : (ship_default < length (dicts w))%nat)
    by (by eapply lookup_lt_Some).
  unfold Shipment_ready, Shipment_ship, Shipment_add, Shipment_remove. simpl.
  split_and!.
  - destruct (Shipment_action_request "/ready" self order_number number
                ready_default ∅ w Hcls Hr) as (r & w' & Hrun & _ & Hd).
    rewrite Hrun. simpl. rewrite Hd, shipment_shape_empty.
    by rewrite list_lookup_insert_eq.
  - rewrite Shipment_action_frame by done. done.
  - destruct (Shipment_action_request "/ready" self order_number number
                ready_default ∅ w Hcls Hr) as (r & w' & Hrun & Hsent & _).
    rewrite Hrun. simpl. rewrite Hsent, drop_app_length.
    by rewrite shipment_shape_empty.
  - rewrite Shipment_action_frame by done. done.
  - destruct (Shipment_action_request "/ship" self order_number number
                ship_default ∅ w Hcls Hs) as (r & w' & Hrun & _ & Hd).
    rewrite Hrun. simpl. rewrite Hd, shipment_shape_empty.
    by rewrite list_lookup_insert_eq.
  - destruct (Shipment_action_request "/ship" self order_number number
                ship_default ∅ w Hcls Hs) as (r & w' & Hrun & Hsent & _).
    rewrite Hrun. simpl. rewrite Hsent, drop_app_length.
    by rewrite shipment_shape_empty.
  - intros data H1 H2.
    rewrite !Shipment_action_frame by done. done.
  - intros handle c H1 H2.
    destruct (invoke_cases handle c w) as (_ & Hd & _).
    by rewrite !Hd.
Qed.

(** *** The next page *)

(** X23.  [next_page] on a Pagination that has a next page and no filters
    asks the handle's URL for the following page with the handle's page
    size, and nothing else. *)
Theorem next_page_request (self : loc) (w : world) (p : Pagination)
    (m : dict) (page pages : Z) :
  paginations w !! self = Some p ->
  data p = PDict m ->
  m !! "current_page" = Some (PInt page) ->
  m !! "pages" = Some (PInt pages) ->
  pages > page ->
  filters p = None ->
  exists r w',
    Pagination_next_page self w = (r, w') /\
    sent w' = sent w ++
      [Request GET (PStr (url (resource p)))
         (api_key (connection (resource p)))
         (Some (<["per_page" := PInt (per_page (resource p))]>
                  (<["page" := PInt (page + 1)]> ∅))) None].
Proof.
  intros Hp Hd Hcur Hpages Hgt Hf.
  destruct (Pagination_next_page_cases self w p m page pages Hp Hd Hcur Hpages)
    as (_ & Hnext & _).
  rewrite (Hnext Hgt), Hf.
  destruct (Resource_find_no_filters (resource p) (page + 1) w)
    as (r & w' & Hrun & Hsent).
  rewrite Hrun. destruct r; eexists _, _; split; done.
Qed.

End Library.

(** ** The code on sample inputs *)

Example format_d_negative : format_d (SInt (-15)) = inr "-15".
Proof. reflexivity. Qed.

Example format_d_text : format_d (SStr "7") = inl TypeError.
Proof. reflexivity. Qed.

Example stock_item_path :
  path (Spree_get_stock_item shop 3) = "/stock_locations/3/stock_items".
Proof. reflexivity. Qed.

Example shipment_url :
  url (Spree_shipment shop (SStr "R100"))
    = "http://shop.test/api/orders/R100/shipments".
Proof. reflexivity. Qed.

Example last_item : getitem_int (PList [PStr "shirt"; PStr "mug"]) (-1)
                      = inr (PStr "mug").
Proof. reflexivity. Qed.

Example unpack_two : unpack1 (PList [PInt 1; PInt 2]) = inl ValueError.
Proof. reflexivity. Qed.

Example loop_over_two_items :
  (for_loop no_text_numbers 5 0%nat (world_with_page 2)).1
    = ([PStr "shirt"; PStr "mug"], Exhausted).
Proof. reflexivity. Qed.

Example loop_over_missing_item :
  (for_loop no_text_numbers 5 0%nat (world_with_page 3)).1
    = ([PStr "shirt"; PStr "mug"], Raised IndexError).
Proof. reflexivity. Qed.

Example ship_twice_keeps_default_empty :
  let w1 := (Shipment_ship (session_ok PNone) (Spree_shipment shop (SStr "R100"))
               (SStr "H1") None initial_world).2 in
  let w2 := (Shipment_ship (session_ok PNone) (Spree_shipment shop (SStr "R100"))
               (SStr "H2") None w1).2 in
  dicts w2 = [∅; ∅] /\ params <$> sent w2 = [Some ∅; Some ∅].
Proof. split; vm_compute; reflexivity. Qed.

(** ** The theorems at sample inputs *)

(** C1 at a session that answers 404. *)
Lemma crud_response_validation_witness :
  sent (invoke session_404 (Spree_product shop) (Get (SInt 7)) initial_world).2
    = sent initial_world ++
        [Request GET (PStr "http://shop.test/api/products/7") "secret"
           None None] /\
  session_404 (sent initial_world)
    (Request GET (PStr "http://shop.test/api/products/7") "secret" None None)
    = inr (Response 404 None) /\
  (invoke session_404 (Spree_product shop) (Get (SInt 7)) initial_world).1
    = inl (ResourceNotFound "Resource not found.").
Proof.
  assert (H1 : sent (invoke session_404 (Spree_product shop) (Get (SInt 7))
                       initial_world).2
               = sent initial_world ++
                   [Request GET (PStr "http://shop.test/api/products/7")
                      "secret" None None]) by (vm_compute; reflexivity).
  assert (H2 : session_404 (sent initial_world)
                 (Request GET (PStr "http://shop.test/api/products/7")
                    "secret" None None)
               = inr (Response 404 None)) by reflexivity.
  split_and!; [exact H1 | exact H2 |].
  destruct (crud_response_validation session_404 _ _ _ _ _ H1 H2)
    as (H404 & _ & _).
  apply H404. reflexivity.
Defined.

(** C1 as first stated fails: a 304 answer is neither a 404 nor a 2xx, and
    [get] hands back its body; no [HTTPError] is raised. *)
Lemma get_status_304_returns_body :
  sent (invoke session_304 (Spree_product shop) (Get (SInt 7)) initial_world).2
    = sent initial_world ++
        [Request GET (PStr "http://shop.test/api/products/7") "secret"
           None None] /\
  session_304 (sent initial_world)
    (Request GET (PStr "http://shop.test/api/products/7") "secret" None None)
    = inr (Response 304 (Some (PDict ∅))) /\
  status_code (Response 304 (Some (PDict ∅))) ≠ 404 /\
  ¬ (200 <= status_code (Response 304 (Some (PDict ∅))) < 300) /\
  (invoke session_304 (Spree_product shop) (Get (SInt 7)) initial_world).1
    = inr (RJson (PDict ∅)) /\
  (invoke session_304 (Spree_product shop) (Get (SInt 7)) initial_world).1
    ≠ inl (HTTPError (Response 304 (Some (PDict ∅)))).
Proof.
  split_and!; try (vm_compute; reflexivity); simpl; try lia; try done.
Qed.

Lemma has_next_and_next_page_witness :
  paginations (world_with_page 2) !! 0%nat = Some (page_of 2) /\
  data (page_of 2) = PDict (page_fields 2) /\
  page_fields 2 !! "current_page" = Some (PInt 1) /\
  page_fields 2 !! "pages" = Some (PInt 3) /\
  (exists b,
     Pagination_has_next no_text_numbers 0%nat (world_with_page 2)
       = (inr b, world_with_page 2) /\
     (b = true <-> 3 > 1)) /\
  (3 > 1 ->
     Pagination_next_page (session_ok PNone) no_text_numbers 0%nat
       (world_with_page 2) =
       match Resource_find (session_ok PNone) (resource (page_of 2)) (1 + 1)
               (filters (page_of 2)) (world_with_page 2) with
       | (inr r, w') => (inr (Some r), w')
       | (inl e, w') => (inl e, w')
       end) /\
  (¬ 3 > 1 ->
     Pagination_next_page (session_ok PNone) no_text_numbers 0%nat
       (world_with_page 2) = (inr None, world_with_page 2)).
Proof.
  assert (H1 : paginations (world_with_page 2) !! 0%nat = Some (page_of 2))
    by reflexivity.
  assert (H2 : data (page_of 2) = PDict (page_fields 2)) by reflexivity.
  assert (H3 : page_fields 2 !! "current_page" = Some (PInt 1)) by reflexivity.
  assert (H4 : page_fields 2 !! "pages" = Some (PInt 3)) by reflexivity.
  split_and!; [exact H1 | exact H2 | exact H3 | exact H4 | ..];
    apply (has_next_and_next_page (session_ok PNone) no_text_numbers 0%nat
             (world_with_page 2) (page_of 2) (page_fields 2) 1 3 H1 H2 H3 H4).
Defined.

Lemma iteration_yields_count_items_witness :
  paginations (world_with_page 2) !! 0%nat = Some (page_of 2) /\
  data (page_of 2) = PDict (page_fields 2) /\
  page_fields 2 !! "count" = Some (PInt 2) /\
  py_int no_text_numbers (PInt 2) = inr 2 /\
  items (page_of 2) = PList [PStr "shirt"; PStr "mug"] /\
  current_index (page_of 2) = -1 /\
  2 <= Z.of_nat (length [PStr "shirt"; PStr "mug"]) /\
  exists w',
    (forall fuel, (Z.to_nat 2 < fuel)%nat ->
       for_loop no_text_numbers fuel 0%nat (world_with_page 2) =
         ((take (Z.to_nat 2) [PStr "shirt"; PStr "mug"], Exhausted), w')) /\
    (0 <= 2 ->
       Z.of_nat (length (take (Z.to_nat 2) [PStr "shirt"; PStr "mug"])) = 2) /\
    sent w' = sent (world_with_page 2) /\
    (forall fuel, (0 < fuel)%nat ->
       for_loop no_text_numbers fuel 0%nat w' = (([], Exhausted), w')).
Proof.
  split_and!; [reflexivity | reflexivity | reflexivity | reflexivity
              | reflexivity | reflexivity | simpl; lia |].
  apply (iteration_yields_count_items no_text_numbers 0%nat
           (world_with_page 2) (page_of 2) (page_fields 2) (PInt 2) 2
           [PStr "shirt"; PStr "mug"]);
    first [reflexivity | simpl; lia].
Defined.

Lemma iteration_fails_when_items_short_witness :
  paginations (world_with_page 3) !! 0%nat = Some (page_of 3) /\
  data (page_of 3) = PDict (page_fields 3) /\
  page_fields 3 !! "count" = Some (PInt 3) /\
  py_int no_text_numbers (PInt 3) = inr 3 /\
  items (page_of 3) = PList [PStr "shirt"; PStr "mug"] /\
  current_index (page_of 3) = -1 /\
  Z.of_nat (length [PStr "shirt"; PStr "mug"]) < 3 /\
  (length [PStr "shirt"; PStr "mug"] < 3)%nat /\
  exists w',
    for_loop no_text_numbers 3 0%nat (world_with_page 3) =
      (([PStr "shirt"; PStr "mug"], Raised IndexError), w') /\
    sent w' = sent (world_with_page 3).
Proof.
  split_and!; [reflexivity | reflexivity | reflexivity | reflexivity
              | reflexivity | reflexivity | simpl; lia | simpl; lia |].
  apply (iteration_fails_when_items_short no_text_numbers 0%nat
           (world_with_page 3) (page_of 3) (page_fields 3) (PInt 3) 3
           [PStr "shirt"; PStr "mug"]);
    first [reflexivity | simpl; lia].
Defined.

Lemma find_mutates_filters_in_place_witness :
  dicts (world_with_dict {[ "q[name_cont]" := PStr "shirt" ]}) !! 2%nat
    = Some {[ "q[name_cont]" := PStr "shirt" ]} /\
  ({[ "q[name_cont]" := PStr "shirt" ]} : dict) ≠ ∅ /\
  session_ok (PDict (page_fields 2))
    (sent (world_with_dict {[ "q[name_cont]" := PStr "shirt" ]}))
    (Request GET (PStr (url (Spree_product shop)))
       (api_key (connection (Spree_product shop)))
       (Some (<["per_page" := PInt (per_page (Spree_product shop))]>
                (<["page" := PInt 1]> {[ "q[name_cont]" := PStr "shirt" ]})))
       None)
    = inr (Response 200 (Some (PDict (page_fields 2)))) /\
  ¬ 400 <= status_code (Response 200 (Some (PDict (page_fields 2)))) < 600 /\
  page_fields 2 !! item_attribute (Spree_product shop)
    = Some (PList [PStr "shirt"; PStr "mug"]) /\
  page_fields 2 !! "current_page" = Some (PInt 1) /\
  page_fields 2 !! "pages" = Some (PInt 3) /\
  3 > 1 /\
  exists pg w' p r2 w2 rq,
    Resource_find (session_ok (PDict (page_fields 2))) (Spree_product shop) 1
      (Some 2%nat) (world_with_dict {[ "q[name_cont]" := PStr "shirt" ]})
      = (inr pg, w') /\
    dicts w' !! 2%nat =
      Some (<["per_page" := PInt 25]>
              (<["page" := PInt 1]> {[ "q[name_cont]" := PStr "shirt" ]})) /\
    paginations w' !! pg = Some p /\
    filters p = Some 2%nat /\
    Pagination_next_page (session_ok (PDict (page_fields 2))) no_text_numbers
      pg w' = (r2, w2) /\
    sent w2 = sent w' ++ [rq] /\
    params rq =
      Some (<["per_page" := PInt 25]>
              (<["page" := PInt (1 + 1)]>
                 (<["per_page" := PInt 25]>
                    (<["page" := PInt 1]>
                       {[ "q[name_cont]" := PStr "shirt" ]})))).
Proof.
  assert (H1 : dicts (world_with_dict {[ "q[name_cont]" := PStr "shirt" ]})
                 !! 2%nat = Some {[ "q[name_cont]" := PStr "shirt" ]})
    by reflexivity.
  assert (H2 : ({[ "q[name_cont]" := PStr "shirt" ]} : dict) ≠ ∅)
    by apply insert_non_empty.
  assert (H3 : session_ok (PDict (page_fields 2))
                 (sent (world_with_dict {[ "q[name_cont]" := PStr "shirt" ]}))
                 (Request GET (PStr (url (Spree_product shop)))
                    (api_key (connection (Spree_product shop)))
                    (Some (<["per_page" := PInt (per_page (Spree_product shop))]>
                             (<["page" := PInt 1]>
                                {[ "q[name_cont]" := PStr "shirt" ]})))
                    None)
               = inr (Response 200 (Some (PDict (page_fields 2)))))
    by reflexivity.
  assert (H4 : ¬ 400 <= status_code
                          (Response 200 (Some (PDict (page_fields 2)))) < 600)
    by (simpl; lia).
  assert (H5 : page_fields 2 !! item_attribute (Spree_product shop)
               = Some (PList [PStr "shirt"; PStr "mug"])) by reflexivity.
  assert (H6 : page_fields 2 !! "current_page" = Some (PInt 1)) by reflexivity.
  assert (H7 : page_fields 2 !! "pages" = Some (PInt 3)) by reflexivity.
  assert (H8 : 3 > 1) by lia.
  split_and!; [exact H1 | exact H2 | exact H3 | exact H4 | exact H5
              | exact H6 | exact H7 | exact H8 |].
  destruct (find_mutates_filters_in_place (session_ok (PDict (page_fields 2)))
              no_text_numbers (Spree_product shop) 1 2%nat _ _ H1 H2)
    as (r & w' & Hfind & Hdict & _ & _ & _ & Hret & Hnext).
  destruct (Hret _ _ _ H3 H4 eq_refl H5)
    as (pg & p & Hr & Hp & Hf & Hdata & _).
  destruct (Hnext pg Hr) as (p' & Hp' & _ & Hpage).
  assert (Hpp : p' = p) by congruence.
  rewrite Hpp in Hpage.
  destruct (Hpage (page_fields 2) 1 3 Hdata H6 H7 H8)
    as (r2 & w2 & rq & Hrun2 & Hsent2 & Hparams).
  exists pg, w', p, r2, w2, rq.
  rewrite Hfind, Hr.
  split_and!; [reflexivity | exact Hdict | exact Hp | exact Hf | exact Hrun2
              | exact Hsent2 | exact Hparams].
Defined.

Lemma product_create_payload_witness :
  cls (Spree_product shop) = Product /\
  dicts (world_with_dict
           (<["price" := PStr "9.99"]> {[ "name" := PStr "Shirt" ]})) !! 2%nat
    = Some (<["price" := PStr "9.99"]> {[ "name" := PStr "Shirt" ]}) /\
  (<["price" := PStr "9.99"]> {[ "name" := PStr "Shirt" ]} : dict) !! "name"
    = Some (PStr "Shirt") /\
  exists r w',
    Resource_create (session_ok PNone) (Spree_product shop) 2%nat
      (world_with_dict
         (<["price" := PStr "9.99"]> {[ "name" := PStr "Shirt" ]}))
      = (r, w') /\
    sent w' =
      [Request POST (PStr "http://shop.test/api/products") "secret" None
         (Some (<["product[price]" := PStr "9.99"]>
                  {[ "product[name]" := PStr "Shirt" ]}))].
Proof.
  assert (H1 : cls (Spree_product shop) = Product) by reflexivity.
  assert (H2 : dicts (world_with_dict
                 (<["price" := PStr "9.99"]> {[ "name" := PStr "Shirt" ]}))
                 !! 2%nat
               = Some (<["price" := PStr "9.99"]> {[ "name" := PStr "Shirt" ]}))
    by reflexivity.
  assert (H3 : (<["price" := PStr "9.99"]> {[ "name" := PStr "Shirt" ]} : dict)
                 !! "name" = Some (PStr "Shirt")) by reflexivity.
  split_and!; [exact H1 | exact H2 | exact H3 |].
  destruct (product_create_payload (session_ok PNone) _ _ _ _ _ H1 H2 H3)
    as (r & w' & payload & Hcreate & Hsent & _ & _ & Hpair).
  exists r, w'. split; [exact Hcreate |].
  rewrite Hsent, (Hpair _ eq_refl). reflexivity.
Defined.

(** C6 as first stated fails: without [name] in the input, [create] raises
    [KeyError] and sends nothing. *)
Lemma product_create_without_name :
  dicts (world_with_dict {[ "price" := PStr "9.99" ]}) !! 2%nat
    = Some {[ "price" := PStr "9.99" ]} /\
  Resource_create (session_ok PNone) (Spree_product shop) 2%nat
    (world_with_dict {[ "price" := PStr "9.99" ]})
    = (inl (KeyError (PStr "name")),
       world_with_dict {[ "price" := PStr "9.99" ]}) /\
  sent (world_with_dict {[ "price" := PStr "9.99" ]}) = [].
Proof. split_and!; reflexivity. Qed.

Lemma shipment_actions_put_params_witness :
  cls (Spree_shipment shop (SStr "R100")) = Shipment (SStr "R100") /\
  dicts (world_with_dict {[ "tracking" := PStr "T1" ]}) !! 2%nat
    = Some {[ "tracking" := PStr "T1" ]} /\
  (exists r w',
     Shipment_add (session_ok PNone) (Spree_shipment shop (SStr "R100"))
       (SStr "H123456789") 2%nat
       (world_with_dict {[ "tracking" := PStr "T1" ]}) = (r, w') /\
     sent w' =
       [Request PUT
          (PStr "http://shop.test/api/orders/R100/shipments/H123456789/add")
          "secret" (Some {[ "shipment[tracking]" := PStr "T1" ]}) None]) /\
  (exists r w',
     Shipment_ship (session_ok PNone) (Spree_shipment shop (SStr "R100"))
       (SStr "H123456789") None
       (world_with_dict {[ "tracking" := PStr "T1" ]}) = (r, w') /\
     sent w' =
       [Request PUT
          (PStr "http://shop.test/api/orders/R100/shipments/H123456789/ship")
          "secret" (Some ∅) None] /\
     dicts w' !! ship_default = Some ∅).
Proof.
  assert (H1 : cls (Spree_shipment shop (SStr "R100")) = Shipment (SStr "R100"))
    by reflexivity.
  assert (H2 : dicts (world_with_dict {[ "tracking" := PStr "T1" ]}) !! 2%nat
               = Some {[ "tracking" := PStr "T1" ]}) by reflexivity.
  split_and!; [exact H1 | exact H2 | |];
    destruct (shipment_actions_put_params (session_ok PNone) _ _
                (SStr "H123456789") _ _ _ H1 H2)
      as (_ & _ & _ & Hadd & _ & _ & Hship).
  - destruct Hadd as (r & w' & Hrun & Hsent).
    exists r, w'. split; [exact Hrun |]. rewrite Hsent. reflexivity.
  - destruct (Hship eq_refl) as (r & w' & Hrun & Hsent & Hdef).
    exists r, w'. split_and!; [exact Hrun | | exact Hdef].
    rewrite Hsent. reflexivity.
Defined.

Lemma variant_get_without_product_id_witness :
  session_ok (PDict {[ "variants" := PList [PStr "v42"] ]})
    (sent initial_world)
    (Request GET (PStr "http://shop.test/api/variants") "secret"
       (Some {[ "q[id_eq]" := PInt 42 ]}) None)
    = inr (Response 200 (Some (PDict {[ "variants" := PList [PStr "v42"] ]})))
  /\
  200 <= status_code
           (Response 200 (Some (PDict {[ "variants" := PList [PStr "v42"] ]})))
      < 300 /\
  ({[ "variants" := PList [PStr "v42"] ]} : dict) !! "variants"
    = Some (PList [PStr "v42"]) /\
  (get (session_ok (PDict {[ "variants" := PList [PStr "v42"] ]}))
     (Spree_variant shop SNone) (SInt 42) initial_world).1
    = inr (PStr "v42").
Proof.
  split; [reflexivity|]. split; [simpl; lia|]. split; [reflexivity|].
  destruct (variant_get_without_product_id
              (session_ok (PDict {[ "variants" := PList [PStr "v42"] ]}))
              shop 25 (SInt 42) initial_world) as (_ & Hget).
  apply (Hget (Response 200 (Some (PDict {[ "variants" := PList [PStr "v42"] ]})))
           {[ "variants" := PList [PStr "v42"] ]} [PStr "v42"]);
    first [reflexivity | simpl; lia].
Defined.

(** ** The further theorems at sample inputs *)

Lemma transport_failure_propagates_witness :
  sent (invoke session_down (Spree_product shop) (Get (SInt 7)) initial_world).2
    = sent initial_world ++
        [Request GET (PStr "http://shop.test/api/products/7") "secret"
           None None] /\
  session_down (sent initial_world)
    (Request GET (PStr "http://shop.test/api/products/7") "secret" None None)
    = inl (RequestException "connection refused") /\
  (invoke session_down (Spree_product shop) (Get (SInt 7)) initial_world).1
    = inl (RequestException "connection refused").
Proof.
  assert (H1 : sent (invoke session_down (Spree_product shop) (Get (SInt 7))
                       initial_world).2
               = sent initial_world ++
                   [Request GET (PStr "http://shop.test/api/products/7")
                      "secret" None None]) by (vm_compute; reflexivity).
  assert (H2 : session_down (sent initial_world)
                 (Request GET (PStr "http://shop.test/api/products/7")
                    "secret" None None)
               = inl (RequestException "connection refused")) by reflexivity.
  split_and!; [exact H1 | exact H2 |].
  exact (transport_failure_propagates session_down (Spree_product shop)
           (Get (SInt 7)) initial_world _ _ H1 H2).
Defined.

Lemma undecodable_body_raises_witness :
  sent (invoke session_garbled (Spree_order shop) (Delete (SInt 7))
          initial_world).2
    = sent initial_world ++
        [Request DELETE (PStr "http://shop.test/api/orders/7") "secret"
           None None] /\
  session_garbled (sent initial_world)
    (Request DELETE (PStr "http://shop.test/api/orders/7") "secret" None None)
    = inr (Response 200 None) /\
  ¬ 400 <= status_code (Response 200 None) < 600 /\
  json_body (Response 200 None) = None /\
  (invoke session_garbled (Spree_order shop) (Delete (SInt 7))
     initial_world).1 = inl ValueError.
Proof.
  assert (H1 : sent (invoke session_garbled (Spree_order shop)
                       (Delete (SInt 7)) initial_world).2
               = sent initial_world ++
                   [Request DELETE (PStr "http://shop.test/api/orders/7")
                      "secret" None None]) by (vm_compute; reflexivity).
  assert (H2 : session_garbled (sent initial_world)
                 (Request DELETE (PStr "http://shop.test/api/orders/7")
                    "secret" None None)
               = inr (Response 200 None)) by reflexivity.
  assert (H3 : ¬ 400 <= status_code (Response 200 None) < 600)
    by (simpl; lia).
  assert (H4 : json_body (Response 200 None) = None) by reflexivity.
  split_and!; [exact H1 | exact H2 | exact H3 | exact H4 |].
  exact (undecodable_body_raises session_garbled (Spree_order shop)
           (Delete (SInt 7)) initial_world _ _ H1 H2 H3 H4).
Defined.

Lemma operations_frame_witness :
  dict_of (Create 2%nat) ≠ Some 0%nat /\
  dicts (world_with_dict {[ "name" := PStr "Shirt" ]}) !! 0%nat = Some ∅ /\
  dicts (invoke (session_ok PNone) (Spree_product shop) (Create 2%nat)
           (world_with_dict {[ "name" := PStr "Shirt" ]})).2 !! 0%nat
    = Some ∅.
Proof.
  assert (H1 : dict_of (Create 2%nat) ≠ Some 0%nat) by (simpl; congruence).
  assert (H2 : dicts (world_with_dict {[ "name" := PStr "Shirt" ]}) !! 0%nat
               = Some ∅) by reflexivity.
  split_and!; [exact H1 | exact H2 |].
  destruct (operations_frame (session_ok PNone) (Spree_product shop)
              (Create 2%nat) (world_with_dict {[ "name" := PStr "Shirt" ]}))
    as [Hd _].
  exact (Hd 0%nat ∅ H1 H2).
Defined.

Lemma update_delete_need_a_number_witness :
  (SStr "R100" = SNone \/ exists s, SStr "R100" = SStr s) /\
  Resource_delete (session_ok PNone) (Spree_order shop) (SStr "R100")
    initial_world = (inl TypeError, initial_world) /\
  update (session_ok PNone) (Spree_order shop) (SStr "R100") 2%nat
    initial_world = (inl TypeError, initial_world).
Proof.
  assert (H1 : SStr "R100" = SNone \/ exists s, SStr "R100" = SStr s)
    by (right; by exists "R100").
  split; [exact H1|].
  destruct (update_delete_need_a_number (session_ok PNone) (Spree_order shop)
              (SStr "R100") 2%nat initial_world H1) as (Hdel & Hupd & _).
  split; [exact Hdel|]. apply Hupd. intros o. simpl. congruence.
Defined.


Lemma stock_item_payload_witness :
  cls (Spree_get_stock_item shop 3) = StockItem 3 /\
  dicts (world_with_dict
           (<["force" := PBool true]> {[ "note" := PStr "recount" ]}))
    !! 2%nat
    = Some (<["force" := PBool true]> {[ "note" := PStr "recount" ]}) /\
  exists r w' (payload : dict),
    Resource_create (session_ok PNone) (Spree_get_stock_item shop 3) 2%nat
      (world_with_dict
         (<["force" := PBool true]> {[ "note" := PStr "recount" ]}))
      = (r, w') /\
    payload !! "stock_item[force]" = Some (PBool true) /\
    payload !! "stock_item[count_on_hand]" = None /\
    payload !! "note" = None.
Proof.
  assert (H1 : cls (Spree_get_stock_item shop 3) = StockItem 3) by reflexivity.
  assert (H2 : dicts (world_with_dict
                 (<["force" := PBool true]> {[ "note" := PStr "recount" ]}))
                 !! 2%nat
               = Some (<["force" := PBool true]> {[ "note" := PStr "recount" ]}))
    by reflexivity.
  split_and!; [exact H1 | exact H2 |].
  destruct (stock_item_payload (session_ok PNone) _ _ _ _ _ H1 H2)
    as (r & w' & payload & Hrun & _ & Hc & Hf & Hkeys).
  exists r, w', payload. split_and!; [exact Hrun | by rewrite Hf | by rewrite Hc |].
  destruct (payload !! "note") eqn:E; [|done].
  destruct (Hkeys "note" (ex_intro _ _ E)); discriminate.
Defined.

Lemma update_sends_create_payload_witness :
  (forall o, cls (Spree_order shop) ≠ Shipment o) /\
  ((sent (Resource_create (session_ok PNone) (Spree_order shop) 2%nat
            (world_with_dict {[ "email" := PStr "a@b.test" ]})).2
      = sent (world_with_dict {[ "email" := PStr "a@b.test" ]}) /\
    sent (update (session_ok PNone) (Spree_order shop) (SInt 7) 2%nat
            (world_with_dict {[ "email" := PStr "a@b.test" ]})).2
      = sent (world_with_dict {[ "email" := PStr "a@b.test" ]})) \/
   exists payload,
     sent (Resource_create (session_ok PNone) (Spree_order shop) 2%nat
             (world_with_dict {[ "email" := PStr "a@b.test" ]})).2
       = sent (world_with_dict {[ "email" := PStr "a@b.test" ]}) ++
           [Request POST (PStr (url (Spree_order shop)))
              (api_key (connection (Spree_order shop))) None (Some payload)] /\
     sent (update (session_ok PNone) (Spree_order shop) (SInt 7) 2%nat
             (world_with_dict {[ "email" := PStr "a@b.test" ]})).2
       = sent (world_with_dict {[ "email" := PStr "a@b.test" ]}) ++
           [Request PUT (PStr (url (Spree_order shop) +:+ "/" +:+ str_of_Z 7))
              (api_key (connection (Spree_order shop))) None (Some payload)]).
Proof.
  assert (H1 : forall o, cls (Spree_order shop) ≠ Shipment o)
    by (intros o; simpl; congruence).
  split; [exact H1|].
  exact (update_sends_create_payload (session_ok PNone) (Spree_order shop) 7
           2%nat _ H1).
Defined.

Lemma product_needs_name_witness :
  cls (Spree_product shop) = Product /\
  dicts (world_with_dict {[ "price" := PStr "9.99" ]}) !! 2%nat
    = Some {[ "price" := PStr "9.99" ]} /\
  ({[ "price" := PStr "9.99" ]} : dict) !! "name" = None /\
  Resource_create (session_ok PNone) (Spree_product shop) 2%nat
    (world_with_dict {[ "price" := PStr "9.99" ]})
    = (inl (KeyError (PStr "name")),
       world_with_dict {[ "price" := PStr "9.99" ]}) /\
  update (session_ok PNone) (Spree_product shop) (SInt 7) 2%nat
    (world_with_dict {[ "price" := PStr "9.99" ]})
    = (inl (KeyError (PStr "name")),
       world_with_dict {[ "price" := PStr "9.99" ]}).
Proof.
  assert (H1 : cls (Spree_product shop) = Product) by reflexivity.
  assert (H2 : dicts (world_with_dict {[ "price" := PStr "9.99" ]}) !! 2%nat
               = Some {[ "price" := PStr "9.99" ]}) by reflexivity.
  assert (H3 : ({[ "price" := PStr "9.99" ]} : dict) !! "name" = None)
    by reflexivity.
  split_and!; [exact H1 | exact H2 | exact H3 | |];
    apply (product_needs_name (session_ok PNone) (Spree_product shop) 7 2%nat
             _ _ H1 H2 H3).
Defined.

Lemma shipment_load_payload_in_place_witness :
  dicts (world_with_dict
           (<["tracking" := PStr "T1"]> {[ "shipment[tracking]" := PStr "T0" ]}))
    !! 2%nat
    = Some (<["tracking" := PStr "T1"]> {[ "shipment[tracking]" := PStr "T0" ]})
  /\
  exists (d' : dict) w',
    Shipment_load_payload 2%nat
      (world_with_dict
         (<["tracking" := PStr "T1"]> {[ "shipment[tracking]" := PStr "T0" ]}))
      = (inr 2%nat, w') /\
    dicts w' !! 2%nat = Some d' /\
    d' !! "tracking" = None /\
    d' !! "shipment[tracking]" = Some (PStr "T1").
Proof.
  assert (H1 : dicts (world_with_dict
                 (<["tracking" := PStr "T1"]>
                    {[ "shipment[tracking]" := PStr "T0" ]})) !! 2%nat
               = Some (<["tracking" := PStr "T1"]>
                         {[ "shipment[tracking]" := PStr "T0" ]}))
    by reflexivity.
  split; [exact H1|].
  destruct (shipment_load_payload_in_place 2%nat _ _ H1)
    as (d' & w' & Hrun & Hd & _ & _ & Ht & _ & Hst & _).
  exists d', w'. split_and!; [exact Hrun | | exact Ht | exact Hst].
  rewrite Hd. reflexivity.
Defined.

Lemma shipment_create_posts_body_witness :
  cls (Spree_shipment shop (SStr "R100")) = Shipment (SStr "R100") /\
  dicts (world_with_dict {[ "tracking" := PStr "T1" ]}) !! 2%nat
    = Some {[ "tracking" := PStr "T1" ]} /\
  exists r w',
    Resource_create (session_ok PNone) (Spree_shipment shop (SStr "R100"))
      2%nat (world_with_dict {[ "tracking" := PStr "T1" ]}) = (r, w') /\
    sent w' =
      [Request POST (PStr "http://shop.test/api/orders/R100/shipments")
         "secret" None (Some {[ "shipment[tracking]" := PStr "T1" ]})] /\
    dicts w' !! 2%nat = Some {[ "shipment[tracking]" := PStr "T1" ]}.
Proof.
  assert (H1 : cls (Spree_shipment shop (SStr "R100")) = Shipment (SStr "R100"))
    by reflexivity.
  assert (H2 : dicts (world_with_dict {[ "tracking" := PStr "T1" ]}) !! 2%nat
               = Some {[ "tracking" := PStr "T1" ]}) by reflexivity.
  split_and!; [exact H1 | exact H2 |].
  destruct (shipment_create_posts_body (session_ok PNone)
              (Spree_shipment shop (SStr "R100")) (SStr "R100") 2%nat _ _
              H1 H2) as (r & w' & Hrun & Hsent & Hd).
  exists r, w'. split_and!; [exact Hrun | rewrite Hsent | rewrite Hd];
    reflexivity.
Defined.

Lemma shipment_helpers_change_caller_dict_witness :
  cls (Spree_shipment shop (SStr "R100")) = Shipment (SStr "R100") /\
  dicts (world_with_dict
           (<["path" := PStr "/elsewhere"]> {[ "tracking" := PStr "T1" ]}))
    !! 2%nat
    = Some (<["path" := PStr "/elsewhere"]> {[ "tracking" := PStr "T1" ]}) /\
  dicts (Shipment_add session_404 (Spree_shipment shop (SStr "R100"))
           (SStr "H1") 2%nat
           (world_with_dict
              (<["path" := PStr "/elsewhere"]> {[ "tracking" := PStr "T1" ]}))).2
    !! 2%nat
    = Some {[ "shipment[tracking]" := PStr "T1" ]}.
Proof.
  assert (H1 : cls (Spree_shipment shop (SStr "R100")) = Shipment (SStr "R100"))
    by reflexivity.
  assert (H2 : dicts (world_with_dict
                 (<["path" := PStr "/elsewhere"]>
                    {[ "tracking" := PStr "T1" ]})) !! 2%nat
               = Some (<["path" := PStr "/elsewhere"]>
                         {[ "tracking" := PStr "T1" ]})) by reflexivity.
  split_and!; [exact H1 | exact H2 |].
  destruct (shipment_helpers_change_caller_dict session_404
              (Spree_shipment shop (SStr "R100")) (SStr "R100") (SStr "H1")
              2%nat _ _ H1 H2) as (_ & _ & _ & Hadd & _).
  rewrite Hadd. reflexivity.
Defined.

Lemma shipment_update_path_entry_witness :
  cls (Spree_shipment shop (SStr "R100")) = Shipment (SStr "R100") /\
  dicts (world_with_dict {[ "path" := PStr EmptyString ]}) !! 2%nat
    = Some {[ "path" := PStr EmptyString ]} /\
  ({[ "path" := PStr EmptyString ]} : dict) !! "path"
    = Some (PStr EmptyString) /\
  exists r w',
    Shipment_update (session_ok PNone) (Spree_shipment shop (SStr "R100"))
      (SStr "H1") 2%nat (world_with_dict {[ "path" := PStr EmptyString ]})
      = (r, w') /\
    sent w' =
      [Request PUT (PStr "http://shop.test/api/orders/R100/shipments/H1")
         "secret" (Some {[ "path" := PStr EmptyString ]}) None].
Proof.
  assert (H1 : cls (Spree_shipment shop (SStr "R100")) = Shipment (SStr "R100"))
    by reflexivity.
  assert (H2 : dicts (world_with_dict {[ "path" := PStr EmptyString ]}) !! 2%nat
               = Some {[ "path" := PStr EmptyString ]}) by reflexivity.
  assert (H3 : ({[ "path" := PStr EmptyString ]} : dict) !! "path"
               = Some (PStr EmptyString)) by reflexivity.
  split_and!; [exact H1 | exact H2 | exact H3 |].
  destruct (shipment_update_path_entry (session_ok PNone)
              (Spree_shipment shop (SStr "R100")) (SStr "R100") (SStr "H1")
              2%nat _ _ _ H1 H2 H3) as (r & w' & Hrun & Hsent).
  simpl in Hsent. destruct Hsent as [Hsent _].
  exists r, w'. split; [exact Hrun|]. rewrite Hsent. reflexivity.
Defined.

Lemma find_query_witness :
  dicts (world_with_dict {[ "page" := PInt 9 ]}) !! 2%nat
    = Some {[ "page" := PInt 9 ]} /\
  session_ok (PDict (page_fields 2))
    (sent (world_with_dict {[ "page" := PInt 9 ]}))
    (Request GET (PStr (url (Spree_product shop)))
       (api_key (connection (Spree_product shop)))
       (Some (<["per_page" := PInt (per_page (Spree_product shop))]>
                (<["page" := PInt 2]> {[ "page" := PInt 9 ]})))
       None)
    = inr (Response 200 (Some (PDict (page_fields 2)))) /\
  ¬ 400 <= status_code (Response 200 (Some (PDict (page_fields 2)))) < 600 /\
  page_fields 2 !! item_attribute (Spree_product shop)
    = Some (PList [PStr "shirt"; PStr "mug"]) /\
  exists pg w' p,
    Resource_find (session_ok (PDict (page_fields 2))) (Spree_product shop) 2
      (Some 2%nat) (world_with_dict {[ "page" := PInt 9 ]}) = (inr pg, w') /\
    sent w' =
      [Request GET (PStr "http://shop.test/api/products") "secret"
         (Some (<["per_page" := PInt 25]> {[ "page" := PInt 2 ]})) None] /\
    paginations w' !! pg = Some p /\
    filters p = Some 2%nat.
Proof.
  assert (H1 : dicts (world_with_dict {[ "page" := PInt 9 ]}) !! 2%nat
               = Some {[ "page" := PInt 9 ]}) by reflexivity.
  assert (H2 : session_ok (PDict (page_fields 2))
                 (sent (world_with_dict {[ "page" := PInt 9 ]}))
                 (Request GET (PStr (url (Spree_product shop)))
                    (api_key (connection (Spree_product shop)))
                    (Some (<["per_page" := PInt (per_page (Spree_product shop))]>
                             (<["page" := PInt 2]> {[ "page" := PInt 9 ]})))
                    None)
               = inr (Response 200 (Some (PDict (page_fields 2)))))
    by reflexivity.
  assert (H3 : ¬ 400 <= status_code
                          (Response 200 (Some (PDict (page_fields 2)))) < 600)
    by (simpl; lia).
  assert (H4 : page_fields 2 !! item_attribute (Spree_product shop)
               = Some (PList [PStr "shirt"; PStr "mug"])) by reflexivity.
  split_and!; [exact H1 | exact H2 | exact H3 | exact H4 |].
  destruct (find_query (session_ok (PDict (page_fields 2)))
              (Spree_product shop) 2 2%nat _ _ H1)
    as (r & w' & Hrun & Hsent & _ & _ & _ & Hret).
  destruct (Hret _ _ _ H2 H3 eq_refl H4) as (pg & p & Hr & Hp & Hf & _).
  exists pg, w', p. rewrite Hrun, Hr.
  split_and!; [reflexivity | rewrite Hsent; reflexivity | exact Hp | exact Hf].
Defined.

Lemma find_then_iterate_witness :
  sent (Resource_find (session_ok (PDict (page_fields 2))) (Spree_product shop)
          1 None initial_world).2
    = sent initial_world ++
        [Request GET (PStr "http://shop.test/api/products") "secret"
           (Some (<["per_page" := PInt 25]> {[ "page" := PInt 1 ]})) None] /\
  session_ok (PDict (page_fields 2)) (sent initial_world)
    (Request GET (PStr "http://shop.test/api/products") "secret"
       (Some (<["per_page" := PInt 25]> {[ "page" := PInt 1 ]})) None)
    = inr (Response 200 (Some (PDict (page_fields 2)))) /\
  ¬ 400 <= status_code (Response 200 (Some (PDict (page_fields 2)))) < 600 /\
  page_fields 2 !! item_attribute (Spree_product shop)
    = Some (PList [PStr "shirt"; PStr "mug"]) /\
  page_fields 2 !! "count" = Some (PInt 2) /\
  py_int no_text_numbers (PInt 2) = inr 2 /\
  2 <= Z.of_nat (length [PStr "shirt"; PStr "mug"]) /\
  exists pg w1 w2,
    Resource_find (session_ok (PDict (page_fields 2))) (Spree_product shop)
      1 None initial_world = (inr pg, w1) /\
    for_loop no_text_numbers 3 pg w1
      = (([PStr "shirt"; PStr "mug"], Exhausted), w2).
Proof.
  assert (H1 : sent (Resource_find (session_ok (PDict (page_fields 2)))
                       (Spree_product shop) 1 None initial_world).2
               = sent initial_world ++
                   [Request GET (PStr "http://shop.test/api/products") "secret"
                      (Some (<["per_page" := PInt 25]> {[ "page" := PInt 1 ]}))
                      None]) by (vm_compute; reflexivity).
  assert (H2 : session_ok (PDict (page_fields 2)) (sent initial_world)
                 (Request GET (PStr "http://shop.test/api/products") "secret"
                    (Some (<["per_page" := PInt 25]> {[ "page" := PInt 1 ]}))
                    None)
               = inr (Response 200 (Some (PDict (page_fields 2)))))
    by reflexivity.
  assert (H3 : ¬ 400 <= status_code
                          (Response 200 (Some (PDict (page_fields 2)))) < 600)
    by (simpl; lia).
  assert (H4 : page_fields 2 !! item_attribute (Spree_product shop)
               = Some (PList [PStr "shirt"; PStr "mug"])) by reflexivity.
  assert (H5 : page_fields 2 !! "count" = Some (PInt 2)) by reflexivity.
  assert (H6 : py_int no_text_numbers (PInt 2) = inr 2) by reflexivity.
  assert (H7 : 2 <= Z.of_nat (length [PStr "shirt"; PStr "mug"]))
    by (simpl; lia).
  split_and!; [exact H1 | exact H2 | exact H3 | exact H4 | exact H5
              | exact H6 | exact H7 |].
  destruct (find_then_iterate (session_ok (PDict (page_fields 2)))
              no_text_numbers (Spree_product shop) 1 None initial_world
              _ _ _ _ _ _ H1 H2 H3 eq_refl H4 H5 H6 H7)
    as (pg & w1 & w2 & Hrun & Hloop & _).
  exists pg, w1, w2. split; [exact Hrun|].
  apply (Hloop 3%nat). simpl. lia.
Defined.

Lemma next_moves_only_its_position_witness :
  paginations (world_with_page 2) !! 0%nat = Some (page_of 2) /\
  exists p',
    paginations (Pagination_next no_text_numbers 0%nat (world_with_page 2)).2
      !! 0%nat = Some p' /\
    items p' = items (page_of 2) /\
    current_index (page_of 2) <= current_index p'
      <= current_index (page_of 2) + 1.
Proof.
  assert (H1 : paginations (world_with_page 2) !! 0%nat = Some (page_of 2))
    by reflexivity.
  split; [exact H1|].
  destruct (next_moves_only_its_position no_text_numbers 0%nat
              (world_with_page 2)) as (_ & _ & _ & Hself).
  destruct (Hself _ H1) as (p' & Hp' & _ & Hi & _ & _ & Hidx).
  exists p'. split_and!; [exact Hp' | exact Hi | apply Hidx | apply Hidx].
Defined.

Lemma next_call_by_call_witness :
  paginations (world_with_page 3) !! 0%nat = Some (page_of 3) /\
  data (page_of 3) = PDict (page_fields 3) /\
  page_fields 3 !! "count" = Some (PInt 3) /\
  py_int no_text_numbers (PInt 3) = inr 3 /\
  items (page_of 3) = PList [PStr "shirt"; PStr "mug"] /\
  current_index (page_of 3) = -1 /\
  (next_calls no_text_numbers 5 0%nat (world_with_page 3)).1
    = [inr (PStr "shirt"); inr (PStr "mug"); inl IndexError;
       inl StopIteration; inl StopIteration].
Proof.
  split_and!; [reflexivity | reflexivity | reflexivity | reflexivity
              | reflexivity | reflexivity |].
  rewrite (next_call_by_call no_text_numbers 0%nat (world_with_page 3)
             (page_of 3) (page_fields 3) (PInt 3) 3
             [PStr "shirt"; PStr "mug"] 5);
    reflexivity.
Defined.

Lemma indexing_ignores_iteration_witness :
  paginations (world_with_page 2) !! 0%nat = Some (page_of 2) /\
  Pagination_getitem 0%nat (-1)
    (next_calls no_text_numbers 4 0%nat (world_with_page 2)).2
    = (inr (PStr "mug"),
       (next_calls no_text_numbers 4 0%nat (world_with_page 2)).2).
Proof.
  assert (H1 : paginations (world_with_page 2) !! 0%nat = Some (page_of 2))
    by reflexivity.
  split; [exact H1|].
  destruct (indexing_ignores_iteration no_text_numbers 0%nat
              (world_with_page 2) (page_of 2) 4 (-1) H1) as [_ H].
  exact H.
Defined.

Lemma pagination_missing_fields_witness :
  paginations world_with_bare_page !! 0%nat
    = Some (mkPagination (PDict ∅) (PList []) (-1) (Spree_product shop) None) /\
  data (mkPagination (PDict ∅) (PList []) (-1) (Spree_product shop) None)
    = PDict ∅ /\
  (∅ : dict) !! "count" = None /\
  (∅ : dict) !! "pages" = None /\
  for_loop no_text_numbers 1 0%nat world_with_bare_page
    = (([], Raised (KeyError (PStr "count"))), world_with_bare_page) /\
  Pagination_next_page (session_ok PNone) no_text_numbers 0%nat
    world_with_bare_page
    = (inl (KeyError (PStr "pages")), world_with_bare_page).
Proof.
  assert (H1 : paginations world_with_bare_page !! 0%nat
               = Some (mkPagination (PDict ∅) (PList []) (-1)
                         (Spree_product shop) None)) by reflexivity.
  assert (H2 : data (mkPagination (PDict ∅) (PList []) (-1)
                       (Spree_product shop) None) = PDict ∅) by reflexivity.
  assert (H3 : (∅ : dict) !! "count" = None) by reflexivity.
  assert (H4 : (∅ : dict) !! "pages" = None) by reflexivity.
  split_and!; [exact H1 | exact H2 | exact H3 | exact H4 | |];
    destruct (pagination_missing_fields (session_ok PNone) no_text_numbers
                0%nat world_with_bare_page _ ∅ H1 H2) as (Hc & Hp & _).
  - apply (Hc H3 1%nat). lia.
  - apply (Hp H4).
Defined.

Lemma indexing_bounds_witness :
  paginations (world_with_page 2) !! 0%nat = Some (page_of 2) /\
  items (page_of 2) = PList [PStr "shirt"; PStr "mug"] /\
  [PStr "shirt"; PStr "mug"] !! 1%nat = Some (PStr "mug") /\
  (Z.of_nat (length [PStr "shirt"; PStr "mug"]) <= 2 \/
   2 < - Z.of_nat (length [PStr "shirt"; PStr "mug"])) /\
  Pagination_getitem 0%nat (Z.of_nat 1) (world_with_page 2)
    = (inr (PStr "mug"), world_with_page 2) /\
  Pagination_getitem 0%nat 2 (world_with_page 2)
    = (inl IndexError, world_with_page 2).
Proof.
  assert (H1 : paginations (world_with_page 2) !! 0%nat = Some (page_of 2))
    by reflexivity.
  assert (H2 : items (page_of 2) = PList [PStr "shirt"; PStr "mug"])
    by reflexivity.
  assert (H3 : [PStr "shirt"; PStr "mug"] !! 1%nat = Some (PStr "mug"))
    by reflexivity.
  assert (H4 : Z.of_nat (length [PStr "shirt"; PStr "mug"]) <= 2 \/
               2 < - Z.of_nat (length [PStr "shirt"; PStr "mug"]))
    by (left; simpl; lia).
  split_and!; [exact H1 | exact H2 | exact H3 | exact H4 | |];
    destruct (indexing_bounds 0%nat (world_with_page 2) (page_of 2) _ H1 H2)
      as [Hin Hout].
  - apply (Hin 1%nat (PStr "mug") H3).
  - apply (Hout 2 H4).
Defined.

Lemma variant_get_by_product_id_witness :
  (SInt 0 = SNone \/ SInt 0 = SInt 0 \/ SInt 0 = SBool false \/
   SInt 0 = SStr EmptyString) /\
  sent (get (session_ok PNone) (Spree_variant shop (SInt 0)) (SInt 42)
          initial_world).2
    = sent initial_world ++
        [Request GET (PStr (conn_url shop +:+ "/variants")) (api_key shop)
           (Some {[ "q[id_eq]" := pyval_of_scalar (SInt 42) ]}) None].
Proof.
  assert (H1 : SInt 0 = SNone \/ SInt 0 = SInt 0 \/ SInt 0 = SBool false \/
               SInt 0 = SStr EmptyString) by (right; left; reflexivity).
  split; [exact H1|].
  destruct (variant_get_by_product_id (session_ok PNone) shop 25 (SInt 0)
              (SInt 42) initial_world) as [Hfalse _].
  exact (Hfalse H1).
Defined.

Lemma default_dicts_stay_empty_witness :
  cls (Spree_shipment shop (SStr "R100")) = Shipment (SStr "R100") /\
  dicts initial_world !! ready_default = Some ∅ /\
  dicts initial_world !! ship_default = Some ∅ /\
  dicts (Shipment_ready (session_ok PNone) (Spree_shipment shop (SStr "R100"))
           (SStr "H1") None initial_world).2 !! ready_default = Some ∅ /\
  dicts (Shipment_ready (session_ok PNone) (Spree_shipment shop (SStr "R100"))
           (SStr "H1") None initial_world).2 !! ship_default = Some ∅.
Proof.
  assert (H1 : cls (Spree_shipment shop (SStr "R100")) = Shipment (SStr "R100"))
    by reflexivity.
  assert (H2 : dicts initial_world !! ready_default = Some ∅) by reflexivity.
  assert (H3 : dicts initial_world !! ship_default = Some ∅) by reflexivity.
  split_and!; [exact H1 | exact H2 | exact H3 | |];
    destruct (default_dicts_stay_empty (session_ok PNone)
                (Spree_shipment shop (SStr "R100")) (SStr "R100") (SStr "H1")
                initial_world H1 H2 H3) as ([[Hr Hs] _] & _).
  - exact Hr.
  - exact Hs.
Defined.

Lemma next_page_request_witness :
  paginations (world_with_page 2) !! 0%nat = Some (page_of 2) /\
  data (page_of 2) = PDict (page_fields 2) /\
  page_fields 2 !! "current_page" = Some (PInt 1) /\
  page_fields 2 !! "pages" = Some (PInt 3) /\
  3 > 1 /\
  filters (page_of 2) = None /\
  exists r w',
    Pagination_next_page (session_ok PNone) no_text_numbers 0%nat
      (world_with_page 2) = (r, w') /\
    sent w' =
      [Request GET (PStr "http://shop.test/api/products") "secret"
         (Some (<["per_page" := PInt 25]> {[ "page" := PInt 2 ]})) None].
Proof.
  assert (H1 : paginations (world_with_page 2) !! 0%nat = Some (page_of 2))
    by reflexivity.
  assert (H2 : data (page_of 2) = PDict (page_fields 2)) by reflexivity.
  assert (H3 : page_fields 2 !! "current_page" = Some (PInt 1)) by reflexivity.
  assert (H4 : page_fields 2 !! "pages" = Some (PInt 3)) by reflexivity.
  assert (H5 : 3 > 1) by lia.
  assert (H6 : filters (page_of 2) = None) by reflexivity.
  split_and!; [exact H1 | exact H2 | exact H3 | exact H4 | exact H5
              | exact H6 |].
  destruct (next_page_request (session_ok PNone) no_text_numbers 0%nat
              (world_with_page 2) (page_of 2) (page_fields 2) 1 3
              H1 H2 H3 H4 H5 H6) as (r & w' & Hrun & Hsent).
  exists r, w'. split; [exact Hrun|]. rewrite Hsent. reflexivity.
Defined.
